(** * Telegram-to-Trello bridge: a shallow embedding of
      [telegram_trello_bot.py] and the properties of its handlers.

    The Python runtime pieces the bot relies on (strings, the values that
    [response.json()] produces, exceptions, truthiness) are modelled in
    [Module Python]; the bot itself follows, function by function, with the
    names of the source. *)

From Stdlib Require Import Floats.
From stdpp Require Import base option list strings gmap pretty.

#[local] Set Warnings "-register-all".

(** ** The Python runtime *)

Module Python.

(** A Python [str] is a sequence of Unicode code points; [len] and slicing
    count code points, not encoded bytes. *)
Definition char : Type := N.
Definition str : Type := list char.

(** ASCII string literals of the source. *)
Definition lit (s : string) : str :=
  Ascii.N_of_ascii <$> String.list_ascii_of_string s.

(** The escape [\n]. *)
Definition nl : str := [10%N].

(** [sep.join(parts)] *)
Fixpoint join (sep : str) (parts : list str) : str :=
  match parts with
  | [] => []
  | [p] => p
  | p :: rest => p ++ sep ++ join sep rest
  end.

(** Values that [json.loads] can produce. A [dict] keeps its insertion
    order; subscription finds the entry of a key. *)
Inductive pyval : Type :=
| PNone
| PBool (b : bool)
| PInt (z : Z)
| PFloat (f : float)
| PStr (s : str)
| PList (l : list pyval)
| PDict (d : list (str * pyval)).

(** [type(v).__name__] *)
Definition type_name (v : pyval) : string :=
  match v with
  | PNone => "NoneType"
  | PBool _ => "bool"
  | PInt _ => "int"
  | PFloat _ => "float"
  | PStr _ => "str"
  | PList _ => "list"
  | PDict _ => "dict"
  end.

(** [bool(v)] *)
Definition truthy (v : pyval) : bool :=
  match v with
  | PNone => false
  | PBool b => b
  | PInt z => negb (z =? 0)%Z
  | PFloat f => negb (PrimFloat.eqb f 0%float)
  | PStr s => negb (bool_decide (s = []))
  | PList l => match l with [] => false | _ => true end
  | PDict d => match d with [] => false | _ => true end
  end.

(** An exception object: its class and what [str(e)] (and so [f"{e}"])
    gives. *)
Record exn : Type := Exn { exn_class : string; exn_str : str }.

Definition TypeError (msg : str) : exn := Exn "TypeError" msg.
Definition AttributeError (msg : str) : exn := Exn "AttributeError" msg.
Definition IndexError (msg : str) : exn := Exn "IndexError" msg.
(** [str(KeyError(k))] is the [repr] of the key. *)
Definition KeyError (key : str) : exn :=
  Exn "KeyError" (lit "'" ++ key ++ lit "'").

(** The outcome of evaluating an expression: a value, or a raised exception.
    Python's hierarchy matters to the [except Exception] clauses of the bot:
    [Raise e] is an exception [e] that is an instance of [Exception];
    [RaiseBase b] is one that is a [BaseException] only ([SystemExit],
    [KeyboardInterrupt], [asyncio.CancelledError]), which no
    [except Exception] catches. *)
Inductive result (A : Type) : Type :=
| Ok (a : A)
| Raise (e : exn)
| RaiseBase (b : exn).
Arguments Ok {A} a.
Arguments Raise {A} e.
Arguments RaiseBase {A} b.

#[export] Instance result_ret : MRet result := λ A a, Ok a.
#[export] Instance result_bind : MBind result := λ A B f m,
  match m with
  | Ok a => f a
  | Raise e => Raise e
  | RaiseBase b => RaiseBase b
  end.

(** [len(v)] *)
Definition len (v : pyval) : result nat :=
  match v with
  | PStr s => Ok (length s)
  | PList l => Ok (length l)
  | PDict d => Ok (length d)
  | _ => Raise (TypeError (lit "object of type '" ++ lit (type_name v)
                             ++ lit "' has no len()"))
  end.

(** The elements [for x in v] runs through. *)
Definition iter (v : pyval) : result (list pyval) :=
  match v with
  | PList l => Ok l
  | PDict d => Ok ((λ kv, PStr kv.1) <$> d)
  | PStr s => Ok ((λ c, PStr [c]) <$> s)
  | _ => Raise (TypeError (lit "'" ++ lit (type_name v)
                             ++ lit "' object is not iterable"))
  end.

(** Lookup of a key in a [dict]. *)
Fixpoint dict_get (d : list (str * pyval)) (key : str) : option pyval :=
  match d with
  | [] => None
  | (k, v) :: rest => if bool_decide (k = key) then Some v else dict_get rest key
  end.

(** [v[key]] for a string key. *)
Definition getitem (v : pyval) (key : str) : result pyval :=
  match v with
  | PDict d =>
      match dict_get d key with
      | Some x => Ok x
      | None => Raise (KeyError key)
      end
  | PStr _ => Raise (TypeError (lit "string indices must be integers, not 'str'"))
  | PList _ =>
      Raise (TypeError (lit "list indices must be integers or slices, not str"))
  | _ => Raise (TypeError (lit "'" ++ lit (type_name v)
                             ++ lit "' object is not subscriptable"))
  end.

(** [l[i]] on a list of tokens. *)
Definition index {A} (l : list A) (i : nat) : result A :=
  match l !! i with
  | Some x => Ok x
  | None => Raise (IndexError (lit "list index out of range"))
  end.

(** [f"{v}"] for an optional string. *)
Definition fmt_opt (v : option str) : str :=
  match v with
  | Some s => s
  | None => lit "None"
  end.

(** [str.lower] restricted to ASCII text, where it maps [A-Z] to [a-z] and
    leaves every other character alone. *)
Definition ascii_lower_char (c : char) : char :=
  if ((65 <=? c) && (c <=? 90))%N then (c + 32)%N else c.
Definition ascii_lower (s : str) : str := ascii_lower_char <$> s.

Definition is_ascii (s : str) : Prop := forallb (λ c, (c <? 128)%N) s = true.

(** What is known of the interpreter's [str.lower]: on ASCII text it is
    [ascii_lower]. *)
Definition agrees_on_ascii (lower : str → str) : Prop :=
  ∀ s, is_ascii s → lower s = ascii_lower s.

End Python.
Import Python.

(** ** Effects: what a handler does to the outside world *)

Inductive level : Type := INFO | ERROR.

(** Callbacks registered with the router. *)
Inductive callback : Type :=
| cb_send_welcome
| cb_telegram_create_card_command
| cb_telegram_trello_reply_command.

Inductive event : Type :=
| Log (lv : level) (msg : str)
| Print (line : str)
| ReplyText (text : str)
| RequestsGet (url : str) (params : list (str * pyval))
| RequestsPost (url : str) (params : list (str * pyval))
| BuildApplication (token : str)
| AddHandler (command : str) (cb : callback)
| RunPolling (drop_pending_updates : bool).

(** A computation leaves a trace of events, in order, and ends in a value or
    in a raised exception. *)
Definition Py (A : Type) : Type := list event * result A.

Definition trace {A} (m : Py A) : list event := m.1.
Definition outcome {A} (m : Py A) : result A := m.2.

#[export] Instance Py_ret : MRet Py := λ A a, ([], Ok a).
#[export] Instance Py_bind : MBind Py := λ A B f m,
  match m.2 with
  | Ok a => (m.1 ++ (f a).1, (f a).2)
  | Raise e => (m.1, Raise e)
  | RaiseBase b => (m.1, RaiseBase b)
  end.

Definition emit (ev : event) : Py unit := ([ev], Ok tt).
Definition lift {A} (r : result A) : Py A := ([], r).

(** [try: body except Exception as e: handler(e)]: an [Exception] is
    handled, anything else that is raised goes through. *)
Definition try_except {A} (body : Py A) (handler : exn → Py A) : Py A :=
  match body.2 with
  | Ok a => body
  | Raise e => (body.1 ++ (handler e).1, (handler e).2)
  | RaiseBase b => body
  end.

(** The outbound calls a trace contains. *)
Definition is_get (ev : event) : bool :=
  match ev with RequestsGet _ _ => true | _ => false end.
Definition is_post (ev : event) : bool :=
  match ev with RequestsPost _ _ => true | _ => false end.
Definition is_outbound (ev : event) : bool := is_get ev || is_post ev.
Definition is_transport (ev : event) : bool :=
  match ev with
  | BuildApplication _ | AddHandler _ _ | RunPolling _ => true
  | _ => false
  end.

(** ** The outside world *)

(** What [requests.get] / [requests.post] hand back: the HTTP status and what
    [response.json()] gives on the body (the decoded value, or the decoder's
    exception). *)
Record Response : Type := { status_code : Z; json : result pyval }.

(** The board service as seen through [requests]: each call returns a
    response or raises (connection refused, timeout, ...). *)
Record Requests : Type := {
  requests_get : str → list (str * pyval) → result Response;
  requests_post : str → list (str * pyval) → result Response }.

(** The messaging transport as seen by [main]. *)
Record Telegram : Type := {
  build : str → result unit;
  run_polling : bool → result unit }.

(** The parts of an incoming update the handlers read. The update carries a
    message and a sender, as it does for a command sent by a user. *)
Record RepliedMessage : Type := { text : option str; caption : option str }.
Record Message : Type := { reply_to_message : option RepliedMessage }.
Record User : Type := { username : option str }.
Record Update : Type := { effective_user : User; message : Message }.
Record CallbackContext : Type := { args : option (list str) }.

(** [bool(v)] for an optional string, and [a or b]. *)
Definition opt_truthy (v : option str) : bool :=
  match v with
  | Some (_ :: _) => true
  | _ => false
  end.
Definition opt_or (a b : option str) : option str :=
  if opt_truthy a then a else b.

(** ** The bot *)

Record TelegramTrelloBotManager : Type := {
  telegram_token : str;
  trello_api_key : str;
  trello_token : str;
  trello_board_id : str;
  trello_base_url : str;
  default_list_name : str }.

(** [TelegramTrelloBotManager.__init__] *)
Definition init (telegram_token trello_api_key trello_token trello_board_id : str)
  : Py TelegramTrelloBotManager :=
  let self := {| telegram_token := telegram_token;
                 trello_api_key := trello_api_key;
                 trello_token := trello_token;
                 trello_board_id := trello_board_id;
                 trello_base_url := lit "https://api.trello.com/1";
                 default_list_name := lit "Todo" |} in
  emit (Log INFO (lit "TelegramTrelloBotManager initialized"));;
  mret self.

(** Line 158: the card name derived from the replied-to text. *)
Definition card_name (original_message : str) : str :=
  if 150 <? length original_message
  then take 150 original_message ++ lit "..."
  else original_message.

Section Handlers.

(** [str.lower] is the interpreter's; the handlers are read for any such
    function. [requests] is the network, [self] the manager. *)
Context (lower : str → str) (requests : Requests)
        (self : TelegramTrelloBotManager).

Definition http_get (url : str) (params : list (str * pyval)) : Py Response :=
  ([RequestsGet url params], requests_get requests url params).
Definition http_post (url : str) (params : list (str * pyval)) : Py Response :=
  ([RequestsPost url params], requests_post requests url params).

Definition create_trello_card (list_id : pyval) (card_name description : str)
  : Py pyval :=
  let url := trello_base_url self ++ lit "/cards" in
  let params := [ (lit "key", PStr (trello_api_key self));
                  (lit "token", PStr (trello_token self));
                  (lit "idList", list_id);
                  (lit "name", PStr card_name);
                  (lit "desc", PStr description) ] in
  response ← http_post url params;
  lift (json response).

Definition get_trello_lists : Py pyval :=
  let url := trello_base_url self ++ lit "/boards/" ++ trello_board_id self
               ++ lit "/lists" in
  let params := [ (lit "key", PStr (trello_api_key self));
                  (lit "token", PStr (trello_token self)) ] in
  response ← http_get url params;
  lift (json response).

(** [v.lower()] *)
Definition lower_of (v : pyval) : result str :=
  match v with
  | PStr s => Ok (lower s)
  | _ => Raise (AttributeError (lit "'" ++ lit (type_name v)
                                  ++ lit "' object has no attribute 'lower'"))
  end.

(** Lines 106 and 149:
    [next((lst for lst in lists if lst['name'].lower() == wanted.lower()), None)] *)
Fixpoint first_named (items : list pyval) (wanted : str) : result pyval :=
  match items with
  | [] => Ok PNone
  | lst :: rest =>
      name ← getitem lst (lit "name");
      lowered ← lower_of name;
      if bool_decide (lowered = lower wanted) then Ok lst
      else first_named rest wanted
  end.
Definition find_list (lists : pyval) (wanted : str) : result pyval :=
  items ← iter lists;
  first_named items wanted.

(** The [try] block around the list fetch, shared by both handlers; [None]
    stands for the [return] of the [except] branch. *)
Definition fetch_lists : Py (option pyval) :=
  try_except
    (lists ← get_trello_lists;
     n ← lift (len lists);
     emit (Log INFO (lit "Retrieved " ++ lit (pretty n) ++ lit " Trello lists"));;
     mret (Some lists))
    (λ e,
     emit (Log ERROR (lit "Error retrieving Trello lists: " ++ exn_str e));;
     emit (ReplyText (lit "Error retrieving Trello lists: " ++ exn_str e));;
     mret None).

Definition usage_text : str :=
  lit "Usage: /createcard <list_name> <card_title>" ++ nl ++
  lit "Example: /createcard Todo 'Buy groceries'".

Definition telegram_create_card_command
    (update : Update) (context : CallbackContext) : Py unit :=
  emit (Log INFO (lit "Create card command received from "
                    ++ fmt_opt (username (effective_user update))));;
  match args context with
  | None => emit (ReplyText usage_text)
  | Some a =>
      if bool_decide (a = []) || (length a <? 2) then emit (ReplyText usage_text)
      else
        list_name ← lift (index a 0);
        let card_title := join (lit " ") (drop 1 a) in
        fetched ← fetch_lists;
        match fetched with
        | None => mret tt
        | Some lists =>
            matching_list ← lift (find_list lists list_name);
            if negb (truthy matching_list) then
              emit (ReplyText (lit "No list found with name: " ++ list_name))
            else
              try_except
                (list_id ← lift (getitem matching_list (lit "id"));
                 card ← create_trello_card list_id card_title (lit "");
                 emit (ReplyText (lit "Card '" ++ card_title
                                    ++ lit "' created in list '" ++ list_name
                                    ++ lit "'!")))
                (λ e,
                 emit (Log ERROR (lit "Error creating Trello card: " ++ exn_str e));;
                 emit (ReplyText (lit "Error creating card: " ++ exn_str e)))
        end
  end.

Definition instruction_text : str :=
  lit "Please use /trello as a reply to a message you want to create a Trello card for.".
Definition no_text_text : str :=
  lit "The message you replied to doesn't contain any text.".

Definition telegram_trello_reply_command
    (update : Update) (context : CallbackContext) : Py unit :=
  emit (Log INFO (lit "/trello command received from "
                    ++ fmt_opt (username (effective_user update))));;
  match reply_to_message (message update) with
  | None => emit (ReplyText instruction_text)
  | Some replied =>
      let original_message := opt_or (text replied) (caption replied) in
      match original_message with
      | None | Some [] => emit (ReplyText no_text_text)
      | Some original_message =>
          fetched ← fetch_lists;
          match fetched with
          | None => mret tt
          | Some lists =>
              todo_list ← lift (find_list lists (default_list_name self));
              if negb (truthy todo_list) then
                emit (ReplyText (lit "No '" ++ default_list_name self
                                   ++ lit "' list found in the board."))
              else
                try_except
                  (let card_name := card_name original_message in
                   list_id ← lift (getitem todo_list (lit "id"));
                   card ← create_trello_card list_id card_name (lit "");
                   emit (ReplyText (lit "Card created in "
                                      ++ default_list_name self ++ lit " list!")))
                  (λ e,
                   emit (Log ERROR (lit "Error creating Trello card: " ++ exn_str e));;
                   emit (ReplyText (lit "Error creating card: " ++ exn_str e)))
          end
      end
  end.

Definition welcome_message : str :=
  lit "Welcome to the Trello Card Creator Bot! " ++ [129302%N] ++ nl ++ nl ++
  lit "Commands:" ++ nl ++
  lit "- /createcard <list_name> <card_title>: Create a card in a specific list" ++ nl ++
  lit "- Reply to any message with /trello to create a card in the Todo list".

Definition send_welcome (update : Update) (context : CallbackContext) : Py unit :=
  emit (Log INFO (lit "Welcome message sent to "
                    ++ fmt_opt (username (effective_user update))));;
  emit (ReplyText welcome_message).

End Handlers.

(** ** Process entry point *)

(** [os.getenv(name)] *)
Definition getenv (environ : gmap string str) (name : string) : option str :=
  environ !! name.

(** [all([...])] on values that are strings or [None]. *)
Definition all_truthy (values : list (option str)) : bool :=
  forallb opt_truthy values.

Definition required_variables : list string :=
  ["TELEGRAM_BOT_TOKEN"; "TRELLO_API_KEY"; "TRELLO_TOKEN"; "TRELLO_BOARD_ID"].

Definition main (environ : gmap string str) (telegram : Telegram) : Py unit :=
  let TELEGRAM_TOKEN := getenv environ "TELEGRAM_BOT_TOKEN" in
  let TRELLO_API_KEY := getenv environ "TRELLO_API_KEY" in
  let TRELLO_TOKEN := getenv environ "TRELLO_TOKEN" in
  let TRELLO_BOARD_ID := getenv environ "TRELLO_BOARD_ID" in
  if negb (all_truthy [TELEGRAM_TOKEN; TRELLO_API_KEY; TRELLO_TOKEN; TRELLO_BOARD_ID])
  then
    emit (Log ERROR (lit "Missing one or more required environment variables"));;
    emit (Print (lit "Please set all required environment variables:"));;
    emit (Print (lit "- TELEGRAM_BOT_TOKEN"));;
    emit (Print (lit "- TRELLO_API_KEY"));;
    emit (Print (lit "- TRELLO_TOKEN"));;
    emit (Print (lit "- TRELLO_BOARD_ID"))
  else
    match TELEGRAM_TOKEN, TRELLO_API_KEY, TRELLO_TOKEN, TRELLO_BOARD_ID with
    | Some telegram_token, Some trello_api_key, Some trello_token, Some trello_board_id =>
        try_except
          (bot_manager ← init telegram_token trello_api_key trello_token trello_board_id;
           ([BuildApplication telegram_token], build telegram telegram_token);;
           emit (AddHandler (lit "start") cb_send_welcome);;
           emit (AddHandler (lit "createcard") cb_telegram_create_card_command);;
           emit (AddHandler (lit "trello") cb_telegram_trello_reply_command);;
           emit (Log INFO (lit "Attempting to start bot polling"));;
           emit (Print (lit "Starting bot polling..."));;
           ([RunPolling true], run_polling telegram true);;
           emit (Log INFO (lit "Bot polling started successfully")))
          (λ e,
           emit (Log ERROR (lit "An error occurred while starting the bot: "
                              ++ exn_str e));;
           emit (Print (lit "Error: " ++ exn_str e)))
    | _, _, _, _ => mret tt (* not reached: [None] is not truthy *)
    end.

(** The required variables that [environ] leaves unset. *)
Definition missing (environ : gmap string str) : list string :=
  filter (λ name, environ !! name = None) required_variables.

(** ** Concrete scenarios, used to run the definitions *)

Module Scenario.

Definition self : TelegramTrelloBotManager :=
  {| telegram_token := lit "tg-token";
     trello_api_key := lit "api-key";
     trello_token := lit "api-token";
     trello_board_id := lit "board";
     trello_base_url := lit "https://api.trello.com/1";
     default_list_name := lit "Todo" |}.

Definition board_list (id name : string) : pyval :=
  PDict [ (lit "id", PStr (lit id)); (lit "name", PStr (lit name)) ].

(** The board of the round-trip scenario. *)
Definition todo_doing : pyval :=
  PList [ board_list "1" "Todo"; board_list "2" "Doing" ].

Definition ok_response (body : pyval) : Response :=
  {| status_code := 200; json := Ok body |}.

(** A board service that answers every read with [lists] and accepts every
    write. *)
Definition serving (lists : pyval) : Requests :=
  {| requests_get := λ _ _, Ok (ok_response lists);
     requests_post := λ _ _, Ok (ok_response (PDict [(lit "id", PStr (lit "c1"))])) |}.

Definition connection_error : exn :=
  Exn "ConnectionError" (lit "Max retries exceeded").

(** A network that is down. *)
Definition offline : Requests :=
  {| requests_get := λ _ _, Raise connection_error;
     requests_post := λ _ _, Raise connection_error |}.

(** A board service that rejects the credentials with status 401 and a
    JSON body describing the refusal. *)
Definition unauthorized : Requests :=
  let refusal :=
    {| status_code := 401;
       json := Ok (PDict [(lit "message", PStr (lit "invalid key"))]) |} in
  {| requests_get := λ _ _, Ok refusal; requests_post := λ _ _, Ok refusal |}.

Definition from_alice (replied : option RepliedMessage) : Update :=
  {| effective_user := {| username := Some (lit "alice") |};
     message := {| reply_to_message := replied |} |}.

Definition tokens (a : list string) : CallbackContext :=
  {| args := Some (lit <$> a) |}.

Definition polling : Telegram :=
  {| build := λ _, Ok tt; run_polling := λ _, Ok tt |}.

End Scenario.

(** ** Vocabulary of the statements *)

(** The number of argument tokens of an invocation. *)
Definition token_count (context : CallbackContext) : nat :=
  match args context with
  | None => 0
  | Some a => length a
  end.

Definition no_post (t : list event) : Prop :=
  Forall (λ ev, is_post ev = false) t.
Definition fetch_attempted (t : list event) : Prop :=
  Exists (λ ev, is_get ev = true) t.

(** The create-card calls of a trace, in order. *)
Definition posts (t : list event) : list event := List.filter is_post t.

(** The two requests the Board Client builds. *)
Definition board_lists_url (self : TelegramTrelloBotManager) : str :=
  trello_base_url self ++ lit "/boards/" ++ trello_board_id self ++ lit "/lists".
Definition cards_url (self : TelegramTrelloBotManager) : str :=
  trello_base_url self ++ lit "/cards".
Definition auth_params (self : TelegramTrelloBotManager) : list (str * pyval) :=
  [ (lit "key", PStr (trello_api_key self));
    (lit "token", PStr (trello_token self)) ].
Definition card_params (self : TelegramTrelloBotManager)
    (list_id : pyval) (name description : str) : list (str * pyval) :=
  [ (lit "key", PStr (trello_api_key self));
    (lit "token", PStr (trello_token self));
    (lit "idList", list_id);
    (lit "name", PStr name);
    (lit "desc", PStr description) ].

(** Tokens joined by a single space, in the words of the usage line: the
    first token, then each further token preceded by one space character
    (code point 32). *)
Definition single_spaced (tokens : list str) : str :=
  match tokens with
  | [] => []
  | t :: ts => t ++ mjoin ((λ x, 32%N :: x) <$> ts)
  end.

(** What both handlers log and reply when the card creation raises [e]. *)
Definition create_card_report (e : exn) : list event :=
  [ Log ERROR (lit "Error creating Trello card: " ++ exn_str e);
    ReplyText (lit "Error creating card: " ++ exn_str e) ].

(** The name of a board list, when it is an object with a string [name]. *)
Definition name_of (lst : pyval) : option str :=
  match getitem lst (lit "name") with
  | Ok (PStr s) => Some s
  | _ => None
  end.

(** [lst] is named like [wanted], up to case; [lst] is named otherwise. *)
Definition named_like (lower : str → str) (wanted : str) (lst : pyval) : Prop :=
  ∃ name, name_of lst = Some name ∧ lower name = lower wanted.
Definition named_unlike (lower : str → str) (wanted : str) (lst : pyval) : Prop :=
  ∃ name, name_of lst = Some name ∧ lower name ≠ lower wanted.

(** The same update, replying to [replied]. *)
Definition replying_to (update : Update) (replied : RepliedMessage) : Update :=
  {| effective_user := effective_user update;
     message := {| reply_to_message := Some replied |} |}.

(** What [main] logs and prints when a required value is not usable. *)
Definition missing_report : list event :=
  [ Log ERROR (lit "Missing one or more required environment variables");
    Print (lit "Please set all required environment variables:");
    Print (lit "- TELEGRAM_BOT_TOKEN");
    Print (lit "- TRELLO_API_KEY");
    Print (lit "- TRELLO_TOKEN");
    Print (lit "- TRELLO_BOARD_ID") ].

(** Two environments: one lacks only the bot token, the other only the
    board identifier. *)
Definition without_bot_token : gmap string str :=
  <["TRELLO_API_KEY" := lit "k"]> (<["TRELLO_TOKEN" := lit "t"]>
    (<["TRELLO_BOARD_ID" := lit "b"]> ∅)).
Definition without_board_id : gmap string str :=
  <["TELEGRAM_BOT_TOKEN" := lit "g"]> (<["TRELLO_API_KEY" := lit "k"]>
    (<["TRELLO_TOKEN" := lit "t"]> ∅)).
Definition fully_configured : gmap string str :=
  <["TELEGRAM_BOT_TOKEN" := lit "g"]> without_bot_token.

(** ** Further vocabulary: replies, outbound calls, log lines *)

Definition is_reply (ev : event) : bool :=
  match ev with ReplyText _ => true | _ => false end.

(** The replies and the outbound calls of a trace, in order. *)
Definition replies (t : list event) : list event := List.filter is_reply t.
Definition outbound (t : list event) : list event := List.filter is_outbound t.

(** The first log line of each handler. *)
Definition create_received (update : Update) : event :=
  Log INFO (lit "Create card command received from "
              ++ fmt_opt (username (effective_user update))).
Definition trello_received (update : Update) : event :=
  Log INFO (lit "/trello command received from "
              ++ fmt_opt (username (effective_user update))).

(** The list fetch as it shows in a trace, and the two ways it is followed
    up inside the [try] block. *)
Definition lists_request (self : TelegramTrelloBotManager) : event :=
  RequestsGet (board_lists_url self) (auth_params self).
Definition retrieved (n : nat) : event :=
  Log INFO (lit "Retrieved " ++ lit (pretty n) ++ lit " Trello lists").
Definition fetch_failure_report (e : exn) : list event :=
  [ Log ERROR (lit "Error retrieving Trello lists: " ++ exn_str e);
    ReplyText (lit "Error retrieving Trello lists: " ++ exn_str e) ].

(** What [main] logs and prints when starting the bot raises [e]. *)
Definition startup_error_report (e : exn) : list event :=
  [ Log ERROR (lit "An error occurred while starting the bot: " ++ exn_str e);
    Print (lit "Error: " ++ exn_str e) ].

(** The registration of the three commands, in the order of [main]. *)
Definition registrations : list event :=
  [ AddHandler (lit "start") cb_send_welcome;
    AddHandler (lit "createcard") cb_telegram_create_card_command;
    AddHandler (lit "trello") cb_telegram_trello_reply_command ].

(** A required value is usable when it is set and not empty. *)
Definition usable (environ : gmap string str) (name : string) : bool :=
  opt_truthy (getenv environ name).

(** How the [try] block around the card creation ends: an [Exception] from
    reading the identifier or from the call is handled, anything else goes
    through. *)
Definition creation_outcome (list_id : result pyval) (created : pyval → result pyval)
  : result unit :=
  match list_id with
  | Ok id =>
      match created id with
      | RaiseBase b => RaiseBase b
      | _ => Ok tt
      end
  | Raise _ => Ok tt
  | RaiseBase b => RaiseBase b
  end.

Module Cases.

(** A board service that answers reads with [lists] and whose writes fail. *)
Definition read_only (lists : pyval) : Requests :=
  {| requests_get := λ _ _, Ok (Scenario.ok_response lists);
     requests_post := λ _ _, Raise Scenario.connection_error |}.

Definition invalid_token : exn := Exn "InvalidToken" (lit "Not Found").
Definition conflict : exn :=
  Exn "Conflict" (lit "terminated by other getUpdates request").

(** A transport that rejects the bot token, and one whose polling breaks. *)
Definition rejecting : Telegram :=
  {| build := λ _, Raise invalid_token; run_polling := λ _, Ok tt |}.
Definition breaking : Telegram :=
  {| build := λ _, Ok tt; run_polling := λ _, Raise conflict |}.


(** A list without identifier. *)
Definition nameless_id : pyval := PDict [ (lit "name", PStr (lit "Todo")) ].

(** An environment where the board identifier is set to the empty string. *)
Definition empty_board_id : gmap string str :=
  <["TRELLO_BOARD_ID" := []]> fully_configured.

End Cases.

(** ** Reasoning about traces *)

Arguments pretty : simpl never.
Arguments join : simpl never.
Opaque lit.

Section TraceLemmas.

Context {A B : Type}.

Lemma trace_bind (m : Py A) (f : A → Py B) :
  trace (m ≫= f) =
  match outcome m with
  | Ok a => trace m ++ trace (f a)
  | _ => trace m
  end.
Proof. destruct m as [t [a|e|b]]; reflexivity. Qed.

Lemma outcome_bind (m : Py A) (f : A → Py B) :
  outcome (m ≫= f) =
  match outcome m with
  | Ok a => outcome (f a)
  | Raise e => Raise e
  | RaiseBase b => RaiseBase b
  end.
Proof. destruct m as [t [a|e|b]]; reflexivity. Qed.

Lemma trace_try_except (body : Py A) (handler : exn → Py A) :
  trace (try_except body handler) =
  match outcome body with
  | Raise e => trace body ++ trace (handler e)
  | _ => trace body
  end.
Proof. destruct body as [t [a|e|b]]; reflexivity. Qed.

Lemma outcome_try_except (body : Py A) (handler : exn → Py A) :
  outcome (try_except body handler) =
  match outcome body with
  | Ok a => Ok a
  | Raise e => outcome (handler e)
  | RaiseBase b => RaiseBase b
  end.
Proof. destruct body as [t [a|e|b]]; reflexivity. Qed.

Lemma trace_lift (r : result A) : trace (lift r) = [].
Proof. reflexivity. Qed.
Lemma outcome_lift (r : result A) : outcome (lift r) = r.
Proof. reflexivity. Qed.
Lemma trace_mret (a : A) : trace (mret a : Py A) = [].
Proof. reflexivity. Qed.
Lemma outcome_mret (a : A) : outcome (mret a : Py A) = Ok a.
Proof. reflexivity. Qed.

(** A computation is its trace and its outcome. *)
Lemma Py_eq (m : Py A) t r : trace m = t → outcome m = r → m = (t, r).
Proof. destruct m; simpl; congruence. Qed.

End TraceLemmas.

Lemma trace_emit ev : trace (emit ev) = [ev].
Proof. reflexivity. Qed.
Lemma outcome_emit ev : outcome (emit ev) = Ok tt.
Proof. reflexivity. Qed.
Lemma index_cons_0 {A} (x : A) l : index (x :: l) 0 = Ok x.
Proof. reflexivity. Qed.

(** Push [trace] and [outcome] through the monadic structure. *)
Ltac py_norm :=
  repeat first
    [ rewrite trace_bind | rewrite outcome_bind
    | rewrite trace_try_except | rewrite outcome_try_except
    | rewrite trace_emit | rewrite outcome_emit
    | rewrite trace_lift | rewrite outcome_lift
    | rewrite trace_mret | rewrite outcome_mret
    | rewrite index_cons_0
    | progress cbv beta iota
    | progress cbn [negb app] ].

(** A trace of log lines and replies holds no fetch. *)
Ltac no_fetch :=
  let H := fresh in
  intros H; exfalso; revert H; unfold fetch_attempted; simpl;
  rewrite ?Exists_cons, Exists_nil; simpl; intuition discriminate.

Lemma posts_app t1 t2 : posts (t1 ++ t2) = posts t1 ++ posts t2.
Proof. apply List.filter_app. Qed.

Lemma posts_no_post t : no_post t → posts t = [].
Proof.
  induction 1 as [|ev t Hev _ IH]; [done|].
  unfold posts in *. simpl. by rewrite Hev.
Qed.

Lemma elem_of_posts ev t : ev ∈ posts t ↔ ev ∈ t ∧ is_post ev = true.
Proof.
  unfold posts. rewrite !list_elem_of_In, List.filter_In. done.
Qed.

Lemma dict_get_card_name self list_id name description :
  dict_get (card_params self list_id name description) (lit "name")
  = Some (PStr name).
Proof. reflexivity. Qed.

(** ** The Board Client as the handlers see it *)

Section FetchLemmas.

Context (requests : Requests) (self : TelegramTrelloBotManager).

Lemma get_trello_lists_trace :
  trace (get_trello_lists requests self)
  = [RequestsGet (board_lists_url self) (auth_params self)].
Proof.
  unfold get_trello_lists, http_get. rewrite trace_bind. simpl.
  by destruct (requests_get _ _ _).
Qed.

Lemma create_trello_card_trace list_id name description :
  trace (create_trello_card requests self list_id name description)
  = [RequestsPost (cards_url self) (card_params self list_id name description)].
Proof.
  unfold create_trello_card, http_post. rewrite trace_bind. simpl.
  by destruct (requests_post _ _ _).
Qed.

(** A failed fetch is reported to the user and ends the [try] with the
    [return] of its [except] branch. *)
Lemma fetch_lists_failed e :
  outcome (get_trello_lists requests self) = Raise e →
  fetch_lists requests self =
    ([ RequestsGet (board_lists_url self) (auth_params self);
       Log ERROR (lit "Error retrieving Trello lists: " ++ exn_str e);
       ReplyText (lit "Error retrieving Trello lists: " ++ exn_str e) ],
     Ok None).
Proof.
  intros Hfail. unfold fetch_lists. apply Py_eq; py_norm.
  - by rewrite Hfail, get_trello_lists_trace.
  - by rewrite Hfail.
Qed.

(** A fetch that returns a sized value is logged and handed on. *)
Lemma fetch_lists_returned lists n :
  outcome (get_trello_lists requests self) = Ok lists →
  len lists = Ok n →
  fetch_lists requests self =
    ([ RequestsGet (board_lists_url self) (auth_params self);
       Log INFO (lit "Retrieved " ++ lit (pretty n) ++ lit " Trello lists") ],
     Ok (Some lists)).
Proof.
  intros Hget Hlen. unfold fetch_lists. apply Py_eq; py_norm.
  - rewrite Hget, get_trello_lists_trace. py_norm. by rewrite Hlen.
  - rewrite Hget. py_norm. by rewrite Hlen.
Qed.

(** Whatever happens, the fetch itself never writes to the board. *)
Lemma fetch_lists_no_post : no_post (trace (fetch_lists requests self)).
Proof.
  unfold fetch_lists. py_norm. rewrite get_trello_lists_trace.
  destruct (outcome (get_trello_lists requests self)) as [lists|e|b]; py_norm.
  - destruct (len lists); py_norm; by repeat constructor.
  - by repeat constructor.
  - by repeat constructor.
Qed.


End FetchLemmas.

(** ** The traces of the two card-creating handlers *)

Section HandlerTraces.

Context (lower : str → str) (requests : Requests)
        (self : TelegramTrelloBotManager).

(** With at least two tokens, the explicit-create handler logs, fetches,
    looks the list up and, on a match, creates the card. *)
Lemma create_command_trace update context list_name second rest :
  args context = Some (list_name :: second :: rest) →
  let card_title := join (lit " ") (second :: rest) in
  trace (telegram_create_card_command lower requests self update context) =
    Log INFO (lit "Create card command received from "
                ++ fmt_opt (username (effective_user update)))
    :: trace (fetch_lists requests self) ++
    match outcome (fetch_lists requests self) with
    | Ok (Some lists) =>
        match find_list lower lists list_name with
        | Ok matching_list =>
            if truthy matching_list then
              match getitem matching_list (lit "id") with
              | Ok list_id =>
                  RequestsPost (cards_url self)
                    (card_params self list_id card_title (lit ""))
                  :: match outcome (create_trello_card requests self list_id
                                      card_title (lit "")) with
                     | Ok _ => [ ReplyText (lit "Card '" ++ card_title
                                   ++ lit "' created in list '" ++ list_name
                                   ++ lit "'!") ]
                     | Raise e => create_card_report e
                     | RaiseBase _ => []
                     end
              | Raise e => create_card_report e
              | RaiseBase _ => []
              end
            else [ ReplyText (lit "No list found with name: " ++ list_name) ]
        | _ => []
        end
    | _ => []
    end.
Proof.
  intros Hargs card_title. unfold telegram_create_card_command.
  rewrite Hargs. change (bool_decide _ || _) with false.
  change (drop 1 (list_name :: second :: rest)) with (second :: rest).
  fold card_title. py_norm. f_equal.
  destruct (outcome (fetch_lists requests self)) as [[lists|]|e|b];
    py_norm; rewrite ?app_nil_r; [f_equal|done..].
  destruct (find_list lower lists list_name) as [matching_list|e|b]; [|done..].
  destruct (truthy matching_list); py_norm; [|done].
  destruct (getitem matching_list (lit "id")) as [list_id|e|b]; py_norm; [|done..].
  rewrite create_trello_card_trace.
  destruct (outcome (create_trello_card _ _ _ _ _)); py_norm; done.
Qed.

(** On a reply that carries text, the reply-to-create handler logs,
    fetches, looks the default list up and, when it is there, creates the
    card named after the text. *)
Lemma reply_command_trace update context replied c m :
  reply_to_message (message update) = Some replied →
  opt_or (text replied) (caption replied) = Some (c :: m) →
  trace (telegram_trello_reply_command lower requests self update context) =
    Log INFO (lit "/trello command received from "
                ++ fmt_opt (username (effective_user update)))
    :: trace (fetch_lists requests self) ++
    match outcome (fetch_lists requests self) with
    | Ok (Some lists) =>
        match find_list lower lists (default_list_name self) with
        | Ok todo_list =>
            if truthy todo_list then
              match getitem todo_list (lit "id") with
              | Ok list_id =>
                  RequestsPost (cards_url self)
                    (card_params self list_id (card_name (c :: m)) (lit ""))
                  :: match outcome (create_trello_card requests self list_id
                                      (card_name (c :: m)) (lit "")) with
                     | Ok _ => [ ReplyText (lit "Card created in "
                                   ++ default_list_name self ++ lit " list!") ]
                     | Raise e => create_card_report e
                     | RaiseBase _ => []
                     end
              | Raise e => create_card_report e
              | RaiseBase _ => []
              end
            else [ ReplyText (lit "No '" ++ default_list_name self
                                ++ lit "' list found in the board.") ]
        | _ => []
        end
    | _ => []
    end.
Proof.
  intros Hreply Htext. unfold telegram_trello_reply_command.
  rewrite Hreply. cbv zeta. rewrite Htext. py_norm. f_equal.
  destruct (outcome (fetch_lists requests self)) as [[lists|]|e|b];
    py_norm; rewrite ?app_nil_r; [f_equal|done..].
  destruct (find_list lower lists (default_list_name self)) as [todo_list|e|b];
    [|done..].
  destruct (truthy todo_list); py_norm; [|done].
  destruct (getitem todo_list (lit "id")) as [list_id|e|b]; py_norm; [|done..].
  rewrite create_trello_card_trace.
  destruct (outcome (create_trello_card _ _ _ _ _)); py_norm; done.
Qed.


(** Each handler makes at most one create-card call, and it has this
    shape. *)
Lemma create_command_posts update context list_name second rest :
  args context = Some (list_name :: second :: rest) →
  let run := trace (telegram_create_card_command lower requests self update context) in
  posts run = [] ∨
  ∃ list_id, posts run =
    [ RequestsPost (cards_url self)
        (card_params self list_id (join (lit " ") (second :: rest)) (lit "")) ].
Proof.
  intros Hargs run. subst run. rewrite (create_command_trace _ _ _ _ _ Hargs).
  cbv zeta. change (posts (?ev :: ?t)) with (posts t).
  rewrite posts_app, (posts_no_post _ (fetch_lists_no_post _ _)). cbn [app].
  repeat case_match; try (by left); right; eexists; reflexivity.
Qed.

Lemma reply_command_posts update context replied c m :
  reply_to_message (message update) = Some replied →
  opt_or (text replied) (caption replied) = Some (c :: m) →
  let run := trace (telegram_trello_reply_command lower requests self update context) in
  posts run = [] ∨
  ∃ list_id, posts run =
    [ RequestsPost (cards_url self)
        (card_params self list_id (card_name (c :: m)) (lit "")) ].
Proof.
  intros Hreply Htext run. subst run.
  rewrite (reply_command_trace _ _ _ _ _ Hreply Htext).
  change (posts (?ev :: ?t)) with (posts t).
  rewrite posts_app, (posts_no_post _ (fetch_lists_no_post _ _)). cbn [app].
  repeat case_match; try (by left); right; eexists; reflexivity.
Qed.

End HandlerTraces.

(** ** Usage errors *)





(** ** Failure of the list fetch *)

(** C7. In both card-creating handlers, when the list fetch is made and
    fails with an error [e], the handler logs it, replies with
    "Error retrieving Trello lists: " followed by the detail [str(e)], and
    returns; no create-card call follows the failed fetch. *)
Theorem failed_fetch_is_reported_and_nothing_created
    lower requests self update context e :
  outcome (get_trello_lists requests self) = Raise e →
  (fetch_attempted (trace (telegram_create_card_command lower requests self update context)) →
   telegram_create_card_command lower requests self update context =
     ([ Log INFO (lit "Create card command received from "
                    ++ fmt_opt (username (effective_user update)));
        RequestsGet (board_lists_url self) (auth_params self);
        Log ERROR (lit "Error retrieving Trello lists: " ++ exn_str e);
        ReplyText (lit "Error retrieving Trello lists: " ++ exn_str e) ], Ok tt)
   ∧ no_post (trace (telegram_create_card_command lower requests self update context)))
  ∧
  (fetch_attempted (trace (telegram_trello_reply_command lower requests self update context)) →
   telegram_trello_reply_command lower requests self update context =
     ([ Log INFO (lit "/trello command received from "
                    ++ fmt_opt (username (effective_user update)));
        RequestsGet (board_lists_url self) (auth_params self);
        Log ERROR (lit "Error retrieving Trello lists: " ++ exn_str e);
        ReplyText (lit "Error retrieving Trello lists: " ++ exn_str e) ], Ok tt)
   ∧ no_post (trace (telegram_trello_reply_command lower requests self update context))).
Proof.
  intros Hfail. apply fetch_lists_failed in Hfail. split.
  - unfold telegram_create_card_command.
    destruct (args context) as [[|x [|y a]]|]; simpl; try by no_fetch.
    intros _. rewrite Hfail. simpl. split; [done|by repeat constructor].
  - unfold telegram_trello_reply_command.
    destruct (reply_to_message (message update)) as [r|]; simpl; [|by no_fetch].
    destruct (opt_or (text r) (caption r)) as [[|c m]|]; simpl; try by no_fetch.
    intros _. rewrite Hfail. simpl. split; [done|by repeat constructor].
Qed.

Lemma failed_fetch_is_reported_and_nothing_created_witness :
  let update :=
    Scenario.from_alice (Some {| text := Some (lit "Call the plumber"); caption := None |}) in
  let context := Scenario.tokens ["Doing"; "Buy milk"] in
  outcome (get_trello_lists Scenario.offline Scenario.self)
    = Raise Scenario.connection_error
  ∧ telegram_create_card_command ascii_lower Scenario.offline Scenario.self
      update context =
      ([ Log INFO (lit "Create card command received from alice");
         RequestsGet (lit "https://api.trello.com/1/boards/board/lists")
           [ (lit "key", PStr (lit "api-key")); (lit "token", PStr (lit "api-token")) ];
         Log ERROR (lit "Error retrieving Trello lists: Max retries exceeded");
         ReplyText (lit "Error retrieving Trello lists: Max retries exceeded") ],
       Ok tt)
  ∧ telegram_trello_reply_command ascii_lower Scenario.offline Scenario.self
      update context =
      ([ Log INFO (lit "/trello command received from alice");
         RequestsGet (lit "https://api.trello.com/1/boards/board/lists")
           [ (lit "key", PStr (lit "api-key")); (lit "token", PStr (lit "api-token")) ];
         Log ERROR (lit "Error retrieving Trello lists: Max retries exceeded");
         ReplyText (lit "Error retrieving Trello lists: Max retries exceeded") ],
       Ok tt).
Proof.
  intros update context.
  assert (Hfail : outcome (get_trello_lists Scenario.offline Scenario.self)
                  = Raise Scenario.connection_error) by reflexivity.
  destruct (failed_fetch_is_reported_and_nothing_created ascii_lower
              Scenario.offline Scenario.self update context
              Scenario.connection_error Hfail) as [Hcreate Hreply].
  split; [exact Hfail|]. split.
  - apply Hcreate. vm_compute. apply Exists_cons_tl, Exists_cons_hd. reflexivity.
  - apply Hreply. vm_compute. apply Exists_cons_tl, Exists_cons_hd. reflexivity.
Defined.

(** ** The list lookup *)

Section Lookup.

Context (lower : str → str).

(** The interpreter's own operations raise [Exception]s only. *)
Lemma getitem_not_base v key b : getitem v key ≠ RaiseBase b.
Proof. destruct v; try done. simpl. by destruct (dict_get d key). Qed.

Lemma len_not_base v b : len v ≠ RaiseBase b.
Proof. by destruct v. Qed.

Lemma first_named_named lst rest wanted name :
  name_of lst = Some name →
  first_named lower (lst :: rest) wanted =
    if bool_decide (lower name = lower wanted) then Ok lst
    else first_named lower rest wanted.
Proof.
  unfold name_of. cbn [first_named].
  destruct (getitem lst (lit "name")) as [[| | | |s| |]|e|b]; try discriminate.
  by intros [= ->].
Qed.

Lemma first_named_unnamed lst rest wanted :
  name_of lst = None → ∃ e, first_named lower (lst :: rest) wanted = Raise e.
Proof.
  unfold name_of. cbn [first_named].
  destruct (getitem lst (lit "name")) as [[| | | |s| |]|e|b] eqn:Hget;
    try discriminate; intros _; try (eexists; reflexivity).
  by apply getitem_not_base in Hget.
Qed.

(** Only a non-empty object has a name, so a match is truthy. *)
Lemma named_truthy lst name : name_of lst = Some name → truthy lst = true.
Proof.
  unfold name_of. destruct lst as [| | | | | |[|kv d]]; try discriminate. done.
Qed.

Lemma first_named_none items wanted :
  Forall (named_unlike lower wanted) items →
  first_named lower items wanted = Ok PNone.
Proof.
  induction 1 as [|lst rest (name & Hname & Hne) _ IH]; [done|].
  rewrite (first_named_named _ _ _ _ Hname).
  by rewrite bool_decide_eq_false_2.
Qed.

Lemma first_named_first pre lst post wanted :
  Forall (named_unlike lower wanted) pre →
  named_like lower wanted lst →
  first_named lower (pre ++ lst :: post) wanted = Ok lst.
Proof.
  intros Hpre (name & Hname & Heq).
  induction Hpre as [|x pre (xname & Hx & Hne) _ IH]; cbn [app].
  - rewrite (first_named_named _ _ _ _ Hname). by rewrite bool_decide_eq_true_2.
  - rewrite (first_named_named _ _ _ _ Hx). by rewrite bool_decide_eq_false_2.
Qed.

(** What a returned value tells: the default, after a walk through lists
    that are all named otherwise, or the first list named like [wanted]. *)
Lemma first_named_inv items wanted r :
  first_named lower items wanted = Ok r →
  (r = PNone ∧ Forall (named_unlike lower wanted) items) ∨
  (∃ pre post, items = pre ++ r :: post ∧ named_like lower wanted r
               ∧ Forall (named_unlike lower wanted) pre).
Proof.
  induction items as [|lst rest IH].
  - intros [= <-]. by left.
  - destruct (name_of lst) as [name|] eqn:Hname.
    2:{ destruct (first_named_unnamed lst rest wanted Hname) as [e ->]. done. }
    rewrite (first_named_named _ _ _ _ Hname). case_bool_decide as Hcmp.
    + intros [= <-]. right. exists [], rest. repeat split; [|constructor].
      by exists name.
    + intros Hrest. destruct (IH Hrest) as [[-> Hall]|(pre & post & -> & Hlike & Hpre)].
      * left. split; [done|]. constructor; [by exists name|done].
      * right. exists (lst :: pre), post. repeat split; [done|].
        constructor; [by exists name|done].
Qed.

Lemma named_like_truthy wanted lst : named_like lower wanted lst → truthy lst = true.
Proof. intros (name & Hname & _). by eapply named_truthy. Qed.

(** On ASCII names the comparison is the ASCII one. *)
Lemma lower_eq_ascii a b :
  agrees_on_ascii lower → is_ascii a → is_ascii b →
  lower a = lower b ↔ ascii_lower a = ascii_lower b.
Proof. intros Hlower Ha Hb. by rewrite (Hlower a Ha), (Hlower b Hb). Qed.

End Lookup.

(** C2. The lookup both handlers use (lines 106 and 149) walks the fetched
    lists in the order they were returned and compares whole names after
    lower-casing both sides: it selects [lst] exactly when [lst] is named like
    the query up to case and every list before it is named otherwise (so the
    first match wins); it selects nothing exactly when every list is named
    otherwise. With a list named "Todo", the queries "todo", "TODO" and
    "ToDo" select it and "tod" selects nothing. *)
Theorem lookup_is_first_case_insensitive_exact_match lower items wanted :
  (∀ lst,
     find_list lower (PList items) wanted = Ok lst ∧ truthy lst = true ↔
     ∃ pre post, items = pre ++ lst :: post
                 ∧ named_like lower wanted lst
                 ∧ Forall (named_unlike lower wanted) pre)
  ∧ ((∃ r, find_list lower (PList items) wanted = Ok r ∧ truthy r = false) ↔
     Forall (named_unlike lower wanted) items)
  ∧ (agrees_on_ascii lower →
     let todo := Scenario.board_list "1" "Todo" in
     find_list lower (PList [todo]) (lit "todo") = Ok todo
     ∧ find_list lower (PList [todo]) (lit "TODO") = Ok todo
     ∧ find_list lower (PList [todo]) (lit "ToDo") = Ok todo
     ∧ find_list lower (PList [todo]) (lit "tod") = Ok PNone).
Proof.
  change (find_list lower (PList items) wanted)
    with (first_named lower items wanted).
  split; [|split].
  - intros lst. split.
    + intros [Hfind Htruthy].
      destruct (first_named_inv _ _ _ _ Hfind) as [[-> _]|Hfirst]; [done|exact Hfirst].
    + intros (pre & post & -> & Hlike & Hpre). split.
      * by apply first_named_first.
      * by eapply named_like_truthy.
  - split.
    + intros (r & Hfind & Hfalsy).
      destruct (first_named_inv _ _ _ _ Hfind) as [[_ Hall]|(pre & post & _ & Hlike & _)];
        [done|].
      apply named_like_truthy in Hlike. congruence.
    + intros Hall. exists PNone. split; [|done]. by apply first_named_none.
  - intros Hlower todo.
    assert (Hname : name_of todo = Some (lit "Todo")) by reflexivity.
    change (find_list lower (PList [todo]) ?q) with (first_named lower [todo] q).
    repeat split.
    1-3: apply (first_named_first lower [] todo []); [constructor|];
         exists (lit "Todo"); split; [done|];
         by apply lower_eq_ascii; [done|vm_compute..].
    apply first_named_none. constructor; [|constructor].
    exists (lit "Todo"). split; [done|].
    rewrite lower_eq_ascii; [|done|vm_compute; reflexivity..].
    vm_compute. discriminate.
Qed.

Lemma lookup_is_first_case_insensitive_exact_match_witness :
  agrees_on_ascii ascii_lower ∧
  find_list ascii_lower (PList [Scenario.board_list "1" "Todo"]) (lit "ToDo")
    = Ok (Scenario.board_list "1" "Todo") ∧
  find_list ascii_lower (PList [Scenario.board_list "1" "Todo"]) (lit "tod")
    = Ok PNone.
Proof.
  assert (Hlower : agrees_on_ascii ascii_lower) by (intros s _; reflexivity).
  split; [exact Hlower|].
  pose proof (proj2 (proj2 (lookup_is_first_case_insensitive_exact_match
    ascii_lower [] []))) as Hexamples.
  specialize (Hexamples Hlower). cbv zeta in Hexamples.
  split; apply Hexamples.
Defined.

(** ** Explicit create *)

Lemma post_in_posts url params t :
  RequestsPost url params ∈ t → RequestsPost url params ∈ posts t.
Proof. intros Hin. by apply elem_of_posts. Qed.

Lemma join_single_spaced tokens : join (lit " ") tokens = single_spaced tokens.
Proof.
  destruct tokens as [|t ts]; [done|]. revert t.
  induction ts as [|t' ts IH]; intros t.
  - simpl. by rewrite app_nil_r.
  - change (join (lit " ") (t :: t' :: ts))
      with (t ++ lit " " ++ join (lit " ") (t' :: ts)).
    rewrite IH. unfold single_spaced. cbn [fmap list_fmap mjoin list_join].
    change (lit " ") with [32%N]. reflexivity.
Qed.

(** C1. With at least two tokens, every create-card call of the
    explicit-create handler goes to the cards endpoint with, as card name, the
    tokens after the first joined by single spaces (the second token, then
    each further token preceded by exactly one space character; so the tokens
    x, y, z after the list name give "x y z"), and there is at most one such
    call. Invoked with the tokens "Doing" and "Buy milk" (or "Doing", "Buy",
    "milk") while the fetch returns the lists Todo (id 1) and Doing (id 2),
    the handler makes exactly one create-card call, with idList "2" and name
    "Buy milk". *)
Theorem explicit_create_round_trip lower requests self update context a :
  args context = Some a →
  2 ≤ length a →
  let run := trace (telegram_create_card_command lower requests self update context) in
  let card_title := single_spaced (drop 1 a) in
  (∀ url params,
     RequestsPost url params ∈ run →
     url = cards_url self ∧ dict_get params (lit "name") = Some (PStr card_title))
  ∧ length (posts run) ≤ 1
  ∧ (∀ list_name x, a = [list_name; x] → card_title = x)
  ∧ (∀ list_name x y z,
       a = [list_name; x; y; z] → card_title = x ++ [32%N] ++ y ++ [32%N] ++ z)
  ∧ (∀ list_name x more,
       a = list_name :: x :: more → more ≠ [] →
       card_title = x ++ [32%N] ++ single_spaced more)
  ∧ (agrees_on_ascii lower →
     a = [lit "Doing"; lit "Buy milk"] ∨ a = [lit "Doing"; lit "Buy"; lit "milk"] →
     outcome (get_trello_lists requests self) = Ok Scenario.todo_doing →
     posts run =
       [ RequestsPost (cards_url self)
           [ (lit "key", PStr (trello_api_key self));
             (lit "token", PStr (trello_token self));
             (lit "idList", PStr (lit "2"));
             (lit "name", PStr (lit "Buy milk"));
             (lit "desc", PStr []) ] ]).
Proof.
  intros Hargs Hlen run card_title. subst card_title.
  rewrite <- join_single_spaced.
  set (card_title := join (lit " ") (drop 1 a)).
  split; [|split; [|split; [|split; [|split]]]].
  3:{ intros list_name x ->. subst card_title. simpl. reflexivity. }
  3:{ intros list_name x y z ->. subst card_title. reflexivity. }
  3:{ intros list_name x more -> Hmore. subst card_title.
      change (drop 1 (list_name :: x :: more)) with (x :: more).
      rewrite join_single_spaced. destruct more as [|y more]; [done|].
      unfold single_spaced. cbn [fmap list_fmap mjoin list_join].
      reflexivity. }
  all: destruct a as [|list_name [|second rest]]; simpl in Hlen; try lia; clear Hlen.
  all: change (drop 1 (list_name :: second :: rest)) with (second :: rest) in card_title.
  all: pose proof (create_command_posts lower requests self update context _ _ _ Hargs)
         as Hposts; cbv zeta in Hposts; fold run card_title in Hposts.
  - intros url params Hin%post_in_posts.
    destruct Hposts as [Hnone|[list_id Hone]].
    + rewrite Hnone in Hin. by apply elem_of_nil in Hin.
    + rewrite Hone in Hin. apply list_elem_of_singleton in Hin.
      injection Hin as -> ->. done.
  - destruct Hposts as [->|[list_id ->]]; simpl; lia.
  - intros Hlower Htokens Hget. subst run.
    rewrite (create_command_trace _ _ _ _ _ _ _ _ Hargs). cbv zeta.
    rewrite (fetch_lists_returned _ _ _ 2 Hget eq_refl).
    change (outcome (?t, ?r)) with r. cbv beta iota.
    assert (list_name = lit "Doing"
            ∧ join (lit " ") (second :: rest) = lit "Buy milk") as [-> ->].
    { by destruct Htokens as [[= -> -> ->]|[= -> -> ->]]. }
    assert (Hfound : find_list lower Scenario.todo_doing (lit "Doing")
                     = Ok (Scenario.board_list "2" "Doing")).
    { apply (first_named_first lower [Scenario.board_list "1" "Todo"]).
      - constructor; [|constructor]. exists (lit "Todo"). split; [done|].
        rewrite lower_eq_ascii; [|done|vm_compute; reflexivity..].
        vm_compute. discriminate.
      - by exists (lit "Doing"). }
    rewrite Hfound.
    change (truthy (Scenario.board_list "2" "Doing")) with true.
    change (getitem (Scenario.board_list "2" "Doing") (lit "id"))
      with (Ok (PStr (lit "2"))).
    cbv beta iota. by destruct (outcome (create_trello_card _ _ _ _ _)).
Qed.

Lemma explicit_create_round_trip_witness :
  let requests := Scenario.serving Scenario.todo_doing in
  let context := Scenario.tokens ["Doing"; "Buy"; "milk"] in
  agrees_on_ascii ascii_lower ∧
  2 ≤ token_count context ∧
  posts (trace (telegram_create_card_command ascii_lower requests Scenario.self
                  (Scenario.from_alice None) context)) =
    [ RequestsPost (lit "https://api.trello.com/1/cards")
        [ (lit "key", PStr (lit "api-key"));
          (lit "token", PStr (lit "api-token"));
          (lit "idList", PStr (lit "2"));
          (lit "name", PStr (lit "Buy milk"));
          (lit "desc", PStr (lit "")) ] ].
Proof.
  intros requests context.
  assert (Hlower : agrees_on_ascii ascii_lower) by (intros s _; reflexivity).
  assert (Hlen : 2 ≤ token_count context) by (vm_compute; lia).
  split; [exact Hlower|]. split; [exact Hlen|].
  destruct (explicit_create_round_trip ascii_lower requests
    Scenario.self (Scenario.from_alice None) context
    [lit "Doing"; lit "Buy"; lit "milk"] eq_refl Hlen)
    as (_ & _ & _ & _ & _ & Hround).
  apply Hround; [exact Hlower|by right|reflexivity].
Defined.

(** ** Reply to create *)

(** C3. In the reply-to-create handler the card name sent upstream is derived
    from the source text [m] as follows: a text longer than 150 characters
    gives its first 150 characters followed by the marker "..." (so 200
    characters give 150 characters plus the marker), any other text is used
    verbatim (so 100 characters pass through unchanged). *)
Theorem reply_card_name_is_truncated_source
    lower requests self update context replied m :
  reply_to_message (message update) = Some replied →
  opt_or (text replied) (caption replied) = Some m →
  m ≠ [] →
  (∀ url params,
     RequestsPost url params ∈
       trace (telegram_trello_reply_command lower requests self update context) →
     dict_get params (lit "name") = Some (PStr (card_name m)))
  ∧ (150 < length m → card_name m = take 150 m ++ lit "...")
  ∧ (length m ≤ 150 → card_name m = m)
  ∧ (length m = 200 →
     take 150 (card_name m) = take 150 m ∧ drop 150 (card_name m) = lit "..."
     ∧ length (card_name m) = 150 + length (lit "..."))
  ∧ (length m = 100 → card_name m = m).
Proof.
  intros Hreply Htext Hm.
  assert (Hlong : 150 < length m → card_name m = take 150 m ++ lit "...").
  { intros Hlen. unfold card_name. by rewrite (proj2 (Nat.ltb_lt _ _) Hlen). }
  assert (Hshort : length m ≤ 150 → card_name m = m).
  { intros Hlen. unfold card_name. by rewrite (proj2 (Nat.ltb_ge _ _) Hlen). }
  split; [|split; [done|split; [done|split]]].
  - destruct m as [|c m]; [done|]. intros url params Hin%post_in_posts.
    destruct (reply_command_posts lower requests self update context _ _ _
                Hreply Htext) as [Hnone|[list_id Hone]].
    + rewrite Hnone in Hin. by apply elem_of_nil in Hin.
    + rewrite Hone in Hin. apply list_elem_of_singleton in Hin.
      injection Hin as -> ->. done.
  - intros Hlen. rewrite Hlong by lia.
    assert (Htake : length (take 150 m) = 150) by (rewrite length_take; lia).
    repeat split.
    + by rewrite take_app_length'.
    + by rewrite drop_app_length'.
    + rewrite length_app. lia.
  - intros Hlen. apply Hshort. lia.
Qed.

Lemma reply_card_name_is_truncated_source_witness :
  let m := replicate 200 120%N in
  let replied := {| text := Some m; caption := None |} in
  length m = 200 ∧
  card_name m = replicate 150 120%N ++ lit "...".
Proof.
  intros m replied.
  assert (Hlen : length m = 200) by reflexivity.
  split; [exact Hlen|].
  destruct (reply_card_name_is_truncated_source ascii_lower
              (Scenario.serving Scenario.todo_doing) Scenario.self
              (Scenario.from_alice (Some replied)) (Scenario.tokens []) replied m
              eq_refl eq_refl ltac:(discriminate)) as (_ & Hlong & _).
  rewrite Hlong; [reflexivity | vm_compute; lia].
Defined.

(** The derived name is no longer than 153 characters, and no longer than
    150 exactly when the source text is. *)
Lemma card_name_length m :
  length (card_name m) ≤ 153 ∧ (length (card_name m) ≤ 150 ↔ length m ≤ 150).
Proof.
  unfold card_name. destruct (Nat.ltb_spec 150 (length m)) as [Hlong|Hshort].
  - rewrite length_app, length_take. change (length (lit "...")) with 3. lia.
  - lia.
Qed.

(** C4, as stated, fails: a replied-to text of 151 characters makes the
    handler create a card whose name has 153 characters. *)
Lemma derived_card_name_can_exceed_150 :
  let m := replicate 151 120%N in
  let update := Scenario.from_alice (Some {| text := Some m; caption := None |}) in
  posts (trace (telegram_trello_reply_command ascii_lower
                  (Scenario.serving Scenario.todo_doing) Scenario.self
                  update (Scenario.tokens []))) =
    [ RequestsPost (cards_url Scenario.self)
        (card_params Scenario.self (PStr (lit "1"))
           (replicate 150 120%N ++ lit "...") (lit "")) ]
  ∧ length (replicate 150 120%N ++ lit "...") = 153
  ∧ ¬ length (card_name m) ≤ 150.
Proof.
  intros m update. split; [|split].
  - vm_compute. reflexivity.
  - reflexivity.
  - vm_compute. lia.
Qed.

(** C4, amended. For every replied-to source text [m] (the text, or else
    the caption, of the replied-to message), the card name the
    reply-to-create handler sends upstream is the name derived from [m] and is
    at most 153 characters long: up to 150 characters of the source text and,
    when the text was longer, the three-character marker. It is at most 150
    characters long exactly when the source text is, and it has exactly 153
    characters when the source text has more than 150. *)
Theorem reply_card_name_at_most_153
    lower requests self update context replied m :
  reply_to_message (message update) = Some replied →
  opt_or (text replied) (caption replied) = Some m →
  ∀ url params,
    RequestsPost url params ∈
      trace (telegram_trello_reply_command lower requests self update context) →
    ∃ name,
      dict_get params (lit "name") = Some (PStr name)
      ∧ name = card_name m
      ∧ length name ≤ 153
      ∧ (length name ≤ 150 ↔ length m ≤ 150)
      ∧ (150 < length m → length name = 153).
Proof.
  intros Hreply Htext url params Hin.
  destruct m as [|c m].
  { exfalso. revert Hin. unfold telegram_trello_reply_command.
    rewrite Hreply. cbv zeta. rewrite Htext. simpl.
    rewrite !elem_of_cons, elem_of_nil. intuition discriminate. }
  exists (card_name (c :: m)). apply post_in_posts in Hin.
  destruct (reply_command_posts lower requests self update context _ _ _
              Hreply Htext) as [Hnone|[list_id Hone]].
  - rewrite Hnone in Hin. by apply elem_of_nil in Hin.
  - rewrite Hone in Hin. apply list_elem_of_singleton in Hin.
    injection Hin as -> ->. split; [done|]. split; [done|].
    destruct (card_name_length (c :: m)) as [Hmax Hiff].
    split; [exact Hmax|]. split; [exact Hiff|].
    intros Hlong. unfold card_name. rewrite (proj2 (Nat.ltb_lt _ _) Hlong).
    rewrite length_app, length_take. change (length (lit "...")) with 3. lia.
Qed.

Lemma reply_card_name_at_most_153_witness :
  let m := replicate 151 120%N in
  let replied := {| text := Some m; caption := None |} in
  let update := Scenario.from_alice (Some replied) in
  let url := cards_url Scenario.self in
  let params := card_params Scenario.self (PStr (lit "1")) (card_name m) (lit "") in
  RequestsPost url params ∈
    trace (telegram_trello_reply_command ascii_lower
             (Scenario.serving Scenario.todo_doing) Scenario.self
             update (Scenario.tokens []))
  ∧ ∃ name, dict_get params (lit "name") = Some (PStr name)
            ∧ name = card_name m
            ∧ length name ≤ 153
            ∧ (length name ≤ 150 ↔ length m ≤ 150)
            ∧ (150 < length m → length name = 153).
Proof.
  intros m replied update url params.
  assert (Hin : RequestsPost url params ∈
    trace (telegram_trello_reply_command ascii_lower
             (Scenario.serving Scenario.todo_doing) Scenario.self
             update (Scenario.tokens []))).
  { apply list_elem_of_In. vm_compute. right. right. right. left. reflexivity. }
  split; [exact Hin|].
  exact (reply_card_name_at_most_153 ascii_lower
           (Scenario.serving Scenario.todo_doing) Scenario.self update
           (Scenario.tokens []) replied m eq_refl eq_refl url params Hin).
Defined.






(** ** Failures of the Board Client *)

(** C8, as stated, fails: a response with a non-success status whose body
    decodes (here 401 with a JSON object, not the expected array of lists) is
    returned by both operations as their result; no error is raised. *)
Lemma non_success_status_is_not_an_error :
  let body := PDict [(lit "message", PStr (lit "invalid key"))] in
  let response := {| status_code := 401; json := Ok body |} in
  requests_get Scenario.unauthorized (board_lists_url Scenario.self)
    (auth_params Scenario.self) = Ok response
  ∧ ¬ (200 ≤ status_code response < 300)%Z
  ∧ outcome (get_trello_lists Scenario.unauthorized Scenario.self) = Ok body
  ∧ outcome (create_trello_card Scenario.unauthorized Scenario.self
               (PStr (lit "2")) (lit "Buy milk") (lit "")) = Ok body.
Proof.
  intros body response. repeat split; try reflexivity. simpl. lia.
Qed.

(** C8, amended. [get_trello_lists] and [create_trello_card] raise an error
    exactly when the HTTP call itself raises or when decoding the response
    body as JSON raises, and the error raised is that underlying exception
    itself. The HTTP status is not looked at and the decoded value is not
    checked against any expected structure: whatever decodes is returned. *)
Theorem board_client_raises_iff_call_or_decoding_raises requests self :
  (∀ e,
     outcome (get_trello_lists requests self) = Raise e ↔
     requests_get requests (board_lists_url self) (auth_params self) = Raise e
     ∨ ∃ response,
         requests_get requests (board_lists_url self) (auth_params self) = Ok response
         ∧ json response = Raise e)
  ∧ (∀ list_id name description e,
       outcome (create_trello_card requests self list_id name description) = Raise e ↔
       requests_post requests (cards_url self)
         (card_params self list_id name description) = Raise e
       ∨ ∃ response,
           requests_post requests (cards_url self)
             (card_params self list_id name description) = Ok response
           ∧ json response = Raise e)
  ∧ (∀ response body,
       requests_get requests (board_lists_url self) (auth_params self) = Ok response →
       json response = Ok body →
       outcome (get_trello_lists requests self) = Ok body)
  ∧ (∀ list_id name description response body,
       requests_post requests (cards_url self)
         (card_params self list_id name description) = Ok response →
       json response = Ok body →
       outcome (create_trello_card requests self list_id name description) = Ok body).
Proof.
  split; [|split; [|split]].
  - intros e. unfold get_trello_lists, http_get. rewrite outcome_bind.
    change (outcome (?t, ?r)) with r.
    fold (board_lists_url self) (auth_params self).
    destruct (requests_get requests (board_lists_url self) (auth_params self))
      as [response|e'|b]; rewrite ?outcome_lift.
    + split; [intros Hjson; right; by exists response|].
      intros [?|(response' & [= <-] & Hjson)]; done.
    + split; [intros [= ->]; by left|].
      intros [[= ->]|(response & ? & _)]; done.
    + split; [done|]. intros [?|(response & ? & _)]; done.
  - intros list_id name description e.
    unfold create_trello_card, http_post. rewrite outcome_bind.
    change (outcome (?t, ?r)) with r.
    fold (cards_url self) (card_params self list_id name description).
    destruct (requests_post requests (cards_url self)
                (card_params self list_id name description))
      as [response|e'|b]; rewrite ?outcome_lift.
    + split; [intros Hjson; right; by exists response|].
      intros [?|(response' & [= <-] & Hjson)]; done.
    + split; [intros [= ->]; by left|].
      intros [[= ->]|(response & ? & _)]; done.
    + split; [done|]. intros [?|(response & ? & _)]; done.
  - intros response body Hget Hjson.
    unfold get_trello_lists, http_get. rewrite outcome_bind.
    change (outcome (?t, ?r)) with r.
    fold (board_lists_url self) (auth_params self).
    by rewrite Hget, outcome_lift.
  - intros list_id name description response body Hpost Hjson.
    unfold create_trello_card, http_post. rewrite outcome_bind.
    change (outcome (?t, ?r)) with r.
    fold (cards_url self) (card_params self list_id name description).
    by rewrite Hpost, outcome_lift.
Qed.

Lemma board_client_raises_iff_call_or_decoding_raises_witness :
  outcome (get_trello_lists Scenario.offline Scenario.self)
    = Raise Scenario.connection_error
  ∧ outcome (get_trello_lists Scenario.unauthorized Scenario.self)
    = Ok (PDict [(lit "message", PStr (lit "invalid key"))]).
Proof.
  split.
  - apply (proj1 (board_client_raises_iff_call_or_decoding_raises
                    Scenario.offline Scenario.self)).
    left. reflexivity.
  - apply (proj1 (proj2 (proj2 (board_client_raises_iff_call_or_decoding_raises
                                  Scenario.unauthorized Scenario.self)))
             {| status_code := 401;
                json := Ok (PDict [(lit "message", PStr (lit "invalid key"))]) |});
      reflexivity.
Defined.

(** ** Startup *)

(** A value that is unset or empty stops the startup before anything is
    built. *)
Lemma main_stops_when_not_all_truthy environ telegram :
  all_truthy [ getenv environ "TELEGRAM_BOT_TOKEN"; getenv environ "TRELLO_API_KEY";
               getenv environ "TRELLO_TOKEN"; getenv environ "TRELLO_BOARD_ID" ]
    = false →
  main environ telegram = (missing_report, Ok tt).
Proof. intros Hall. unfold main. cbv zeta. by rewrite Hall. Qed.

(** With the four values set, the bot is built and polling is started. *)
Lemma main_starts_when_configured :
  trace (main fully_configured Scenario.polling) =
    [ Log INFO (lit "TelegramTrelloBotManager initialized");
      BuildApplication (lit "g");
      AddHandler (lit "start") cb_send_welcome;
      AddHandler (lit "createcard") cb_telegram_create_card_command;
      AddHandler (lit "trello") cb_telegram_trello_reply_command;
      Log INFO (lit "Attempting to start bot polling");
      Print (lit "Starting bot polling...");
      RunPolling true;
      Log INFO (lit "Bot polling started successfully") ].
Proof. vm_compute. reflexivity. Qed.

(** C9, as stated, fails: the startup output does not tell which value is
    missing. An environment without the bot token and one without the board
    identifier give the same output, which lists all four names, those that
    are set included; so no reading of the output recovers the missing
    values. *)
Lemma startup_output_hides_which_value_is_missing :
  missing without_bot_token = ["TELEGRAM_BOT_TOKEN"]
  ∧ missing without_board_id = ["TRELLO_BOARD_ID"]
  ∧ trace (main without_bot_token Scenario.polling)
    = trace (main without_board_id Scenario.polling)
  ∧ Print (lit "- TRELLO_API_KEY") ∈ trace (main without_bot_token Scenario.polling)
  ∧ ¬ ∃ report : list event → list string,
        ∀ environ telegram,
          missing environ ≠ [] →
          report (trace (main environ telegram)) = missing environ.
Proof.
  assert (H1 : missing without_bot_token = ["TELEGRAM_BOT_TOKEN"])
    by (vm_compute; reflexivity).
  assert (H2 : missing without_board_id = ["TRELLO_BOARD_ID"])
    by (vm_compute; reflexivity).
  assert (H3 : trace (main without_bot_token Scenario.polling)
               = trace (main without_board_id Scenario.polling))
    by (vm_compute; reflexivity).
  repeat split; try done.
  - apply list_elem_of_In. vm_compute. right. right. right. left. reflexivity.
  - intros [report Hreport].
    pose proof (Hreport without_bot_token Scenario.polling) as Ha.
    pose proof (Hreport without_board_id Scenario.polling) as Hb.
    rewrite H1 in Ha. rewrite H2 in Hb. rewrite H3 in Ha.
    rewrite Hb in Ha by done. specialize (Ha ltac:(done)). discriminate.
Qed.

(** C9, amended. At startup, if any of the four required values is unset,
    [main] logs that one or more required variables are missing, prints the
    fixed list of all four variable names, and returns: the application is
    not built, no handler is registered and polling is not started. *)
Theorem main_fails_fast_when_a_value_is_unset environ telegram name :
  name ∈ required_variables →
  environ !! name = None →
  main environ telegram = (missing_report, Ok tt)
  ∧ Forall (λ ev, is_transport ev = false) (trace (main environ telegram)).
Proof.
  intros Hname Hunset.
  assert (Hstop : main environ telegram = (missing_report, Ok tt)).
  { apply main_stops_when_not_all_truthy. unfold all_truthy, getenv.
    unfold required_variables in Hname.
    rewrite !elem_of_cons, elem_of_nil in Hname.
    destruct Hname as [->|[->|[->|[->|[]]]]]; rewrite Hunset; simpl;
      rewrite ?andb_false_r; done. }
  split; [exact Hstop|]. rewrite Hstop. by repeat constructor.
Qed.

Lemma main_fails_fast_when_a_value_is_unset_witness :
  "TRELLO_BOARD_ID" ∈ required_variables
  ∧ without_board_id !! "TRELLO_BOARD_ID" = None
  ∧ main without_board_id Scenario.polling = (missing_report, Ok tt).
Proof.
  assert (Hname : "TRELLO_BOARD_ID" ∈ required_variables).
  { apply list_elem_of_In. vm_compute. right. right. right. left. reflexivity. }
  assert (Hunset : without_board_id !! "TRELLO_BOARD_ID" = None)
    by (vm_compute; reflexivity).
  split; [exact Hname|]. split; [exact Hunset|].
  exact (proj1 (main_fails_fast_when_a_value_is_unset without_board_id
                  Scenario.polling "TRELLO_BOARD_ID" Hname Hunset)).
Defined.


(** * Further properties of the handlers and of the entry point *)

(** ** The list fetch, case by case *)

Section FetchCases.

Context (requests : Requests) (self : TelegramTrelloBotManager).

(** A fetch whose result has no length is reported like a failed fetch. *)
Lemma fetch_lists_unsized lists e :
  outcome (get_trello_lists requests self) = Ok lists →
  len lists = Raise e →
  fetch_lists requests self =
    (lists_request self :: fetch_failure_report e, Ok None).
Proof.
  intros Hget Hlen. unfold fetch_lists. apply Py_eq; py_norm.
  - rewrite Hget, get_trello_lists_trace. py_norm. by rewrite Hlen.
  - rewrite Hget. py_norm. by rewrite Hlen.
Qed.

(** What is not an [Exception] goes through the [try] block. *)
Lemma fetch_lists_interrupted b :
  outcome (get_trello_lists requests self) = RaiseBase b →
  fetch_lists requests self = ([lists_request self], RaiseBase b).
Proof.
  intros Hget. unfold fetch_lists. apply Py_eq; py_norm.
  - by rewrite Hget, get_trello_lists_trace.
  - by rewrite Hget.
Qed.

(** The [try] block lets no [Exception] out: it hands the lists on, or it
    has replied and asks the handler to return, or the call was interrupted
    by something that is not an [Exception]. *)
Lemma fetch_lists_cases :
  (∃ lists n,
     outcome (get_trello_lists requests self) = Ok lists ∧ len lists = Ok n ∧
     fetch_lists requests self =
       ([lists_request self; retrieved n], Ok (Some lists)))
  ∨ (∃ e, fetch_lists requests self =
            (lists_request self :: fetch_failure_report e, Ok None))
  ∨ (∃ b, fetch_lists requests self = ([lists_request self], RaiseBase b)).
Proof.
  destruct (outcome (get_trello_lists requests self)) as [lists|e|b] eqn:Hget.
  - destruct (len lists) as [n|e|b] eqn:Hlen.
    + left. exists lists, n. split; [done|]. split; [done|].
      by apply fetch_lists_returned.
    + right. left. exists e. by apply (fetch_lists_unsized lists).
    + by apply len_not_base in Hlen.
  - right. left. exists e. by apply fetch_lists_failed.
  - right. right. exists b. by apply fetch_lists_interrupted.
Qed.

End FetchCases.

(** ** The outcomes of the two card-creating handlers *)

Section HandlerOutcomes.

Context (lower : str → str) (requests : Requests)
        (self : TelegramTrelloBotManager).

Lemma create_command_outcome update context list_name second rest :
  args context = Some (list_name :: second :: rest) →
  let card_title := join (lit " ") (second :: rest) in
  outcome (telegram_create_card_command lower requests self update context) =
    match outcome (fetch_lists requests self) with
    | Ok (Some lists) =>
        match find_list lower lists list_name with
        | Ok matching_list =>
            if truthy matching_list then
              creation_outcome (getitem matching_list (lit "id"))
                (λ list_id, outcome (create_trello_card requests self list_id
                                       card_title (lit "")))
            else Ok tt
        | Raise e => Raise e
        | RaiseBase b => RaiseBase b
        end
    | Ok None => Ok tt
    | Raise e => Raise e
    | RaiseBase b => RaiseBase b
    end.
Proof.
  intros Hargs card_title. unfold telegram_create_card_command, creation_outcome.
  rewrite Hargs. change (bool_decide _ || _) with false.
  change (drop 1 (list_name :: second :: rest)) with (second :: rest).
  fold card_title. py_norm.
  destruct (outcome (fetch_lists requests self)) as [[lists|]|e|b]; py_norm; [|done..].
  destruct (find_list lower lists list_name) as [matching_list|e|b]; [|done..].
  destruct (truthy matching_list); py_norm; [|done].
  destruct (getitem matching_list (lit "id")) as [list_id|e|b]; py_norm; [|done..].
  destruct (outcome (create_trello_card _ _ _ _ _)); py_norm; done.
Qed.

Lemma reply_command_outcome update context replied c m :
  reply_to_message (message update) = Some replied →
  opt_or (text replied) (caption replied) = Some (c :: m) →
  outcome (telegram_trello_reply_command lower requests self update context) =
    match outcome (fetch_lists requests self) with
    | Ok (Some lists) =>
        match find_list lower lists (default_list_name self) with
        | Ok todo_list =>
            if truthy todo_list then
              creation_outcome (getitem todo_list (lit "id"))
                (λ list_id, outcome (create_trello_card requests self list_id
                                       (card_name (c :: m)) (lit "")))
            else Ok tt
        | Raise e => Raise e
        | RaiseBase b => RaiseBase b
        end
    | Ok None => Ok tt
    | Raise e => Raise e
    | RaiseBase b => RaiseBase b
    end.
Proof.
  intros Hreply Htext. unfold telegram_trello_reply_command, creation_outcome.
  rewrite Hreply. cbv zeta. rewrite Htext. py_norm.
  destruct (outcome (fetch_lists requests self)) as [[lists|]|e|b]; py_norm; [|done..].
  destruct (find_list lower lists (default_list_name self)) as [todo_list|e|b];
    [|done..].
  destruct (truthy todo_list); py_norm; [|done].
  destruct (getitem todo_list (lit "id")) as [list_id|e|b]; py_norm; [|done..].
  destruct (outcome (create_trello_card _ _ _ _ _)); py_norm; done.
Qed.

(** The ways an invocation of each handler can start. *)
Lemma create_command_cases update context :
  telegram_create_card_command lower requests self update context =
    ([create_received update; ReplyText usage_text], Ok tt)
  ∨ ∃ list_name second rest, args context = Some (list_name :: second :: rest).
Proof.
  destruct (args context) as [[|list_name [|second rest]]|] eqn:Hargs.
  4: left; unfold telegram_create_card_command; by rewrite Hargs.
  3: right; by exists list_name, second, rest.
  all: left; unfold telegram_create_card_command; by rewrite Hargs.
Qed.

Lemma reply_command_cases update context :
  telegram_trello_reply_command lower requests self update context =
    ([trello_received update; ReplyText instruction_text], Ok tt)
  ∨ telegram_trello_reply_command lower requests self update context =
    ([trello_received update; ReplyText no_text_text], Ok tt)
  ∨ ∃ replied c m, reply_to_message (message update) = Some replied
                   ∧ opt_or (text replied) (caption replied) = Some (c :: m).
Proof.
  destruct (reply_to_message (message update)) as [replied|] eqn:Hreply.
  2: left; unfold telegram_trello_reply_command; by rewrite Hreply.
  right.
  destruct (opt_or (text replied) (caption replied)) as [[|c m]|] eqn:Htext.
  2: right; by exists replied, c, m.
  all: left; unfold telegram_trello_reply_command; rewrite Hreply; cbv zeta;
       by rewrite Htext.
Qed.

End HandlerOutcomes.

(** Replace the handler by its trace and outcome once the fetch is known. *)
Ltac run_create Hargs Hfetch :=
  apply Py_eq;
  [ rewrite (create_command_trace _ _ _ _ _ _ _ _ Hargs)
  | rewrite (create_command_outcome _ _ _ _ _ _ _ _ Hargs) ];
  cbv zeta; rewrite Hfetch;
  change (outcome (?t, ?r)) with r; change (trace (?t, ?r)) with t;
  unfold creation_outcome; cbv beta iota.
Ltac run_reply Hreply Htext Hfetch :=
  apply Py_eq;
  [ rewrite (reply_command_trace _ _ _ _ _ _ _ _ Hreply Htext)
  | rewrite (reply_command_outcome _ _ _ _ _ _ _ _ Hreply Htext) ];
  rewrite Hfetch;
  change (outcome (?t, ?r)) with r; change (trace (?t, ?r)) with t;
  unfold creation_outcome; cbv beta iota.

(** ** Explicit create: the paths after the fetch *)

(** X1. When the fetched lists are all named otherwise than the first token
    (an empty board included), the explicit-create handler replies
    "No list found with name: " followed by the token as typed, creates
    nothing and returns. *)
Theorem create_card_reports_unknown_list
    lower requests self update context list_name second rest lists n items :
  args context = Some (list_name :: second :: rest) →
  outcome (get_trello_lists requests self) = Ok lists →
  len lists = Ok n →
  iter lists = Ok items →
  Forall (named_unlike lower list_name) items →
  telegram_create_card_command lower requests self update context =
    ([ create_received update; lists_request self; retrieved n;
       ReplyText (lit "No list found with name: " ++ list_name) ], Ok tt).
Proof.
  intros Hargs Hget Hlen Hiter Hnone.
  pose proof (fetch_lists_returned _ _ _ _ Hget Hlen) as Hfetch.
  assert (Hfind : find_list lower lists list_name = Ok PNone).
  { unfold find_list. rewrite Hiter. by apply first_named_none. }
  run_create Hargs Hfetch; by rewrite Hfind.
Qed.

Lemma create_card_reports_unknown_list_witness :
  telegram_create_card_command ascii_lower (Scenario.serving Scenario.todo_doing)
    Scenario.self (Scenario.from_alice None) (Scenario.tokens ["Done"; "Ship"; "it"]) =
    ([ Log INFO (lit "Create card command received from alice");
       RequestsGet (lit "https://api.trello.com/1/boards/board/lists")
         [ (lit "key", PStr (lit "api-key")); (lit "token", PStr (lit "api-token")) ];
       Log INFO (lit "Retrieved 2 Trello lists");
       ReplyText (lit "No list found with name: Done") ], Ok tt).
Proof.
  apply (create_card_reports_unknown_list ascii_lower
           (Scenario.serving Scenario.todo_doing) Scenario.self
           (Scenario.from_alice None) (Scenario.tokens ["Done"; "Ship"; "it"])
           (lit "Done") (lit "Ship") [lit "it"] Scenario.todo_doing 2
           [Scenario.board_list "1" "Todo"; Scenario.board_list "2" "Doing"]);
    try reflexivity.
  repeat constructor.
  - exists (lit "Todo"). split; [reflexivity|]. vm_compute. discriminate.
  - exists (lit "Doing"). split; [reflexivity|]. vm_compute. discriminate.
Defined.

(** X2. When the lookup selects a list that has an identifier and the
    create-card call returns, the explicit-create handler has made exactly
    that one call and confirms with "Card '<title>' created in list
    '<token>'!", where the list name shown is the first token as the user
    typed it, not the name the board has. *)
Theorem create_card_confirms_with_typed_name
    lower requests self update context list_name second rest
    lists n matching_list list_id card :
  args context = Some (list_name :: second :: rest) →
  outcome (get_trello_lists requests self) = Ok lists →
  len lists = Ok n →
  find_list lower lists list_name = Ok matching_list →
  truthy matching_list = true →
  getitem matching_list (lit "id") = Ok list_id →
  let card_title := join (lit " ") (second :: rest) in
  outcome (create_trello_card requests self list_id card_title (lit "")) = Ok card →
  telegram_create_card_command lower requests self update context =
    ([ create_received update; lists_request self; retrieved n;
       RequestsPost (cards_url self) (card_params self list_id card_title (lit ""));
       ReplyText (lit "Card '" ++ card_title ++ lit "' created in list '"
                    ++ list_name ++ lit "'!") ], Ok tt).
Proof.
  intros Hargs Hget Hlen Hfind Htruthy Hid card_title Hcreate.
  pose proof (fetch_lists_returned _ _ _ _ Hget Hlen) as Hfetch.
  run_create Hargs Hfetch; rewrite Hfind; cbv beta iota;
    rewrite Htruthy, Hid; fold card_title; by rewrite Hcreate.
Qed.

Lemma create_card_confirms_with_typed_name_witness :
  telegram_create_card_command ascii_lower (Scenario.serving Scenario.todo_doing)
    Scenario.self (Scenario.from_alice None) (Scenario.tokens ["DOING"; "Buy"; "milk"]) =
    ([ Log INFO (lit "Create card command received from alice");
       RequestsGet (lit "https://api.trello.com/1/boards/board/lists")
         [ (lit "key", PStr (lit "api-key")); (lit "token", PStr (lit "api-token")) ];
       Log INFO (lit "Retrieved 2 Trello lists");
       RequestsPost (lit "https://api.trello.com/1/cards")
         [ (lit "key", PStr (lit "api-key")); (lit "token", PStr (lit "api-token"));
           (lit "idList", PStr (lit "2")); (lit "name", PStr (lit "Buy milk"));
           (lit "desc", PStr []) ];
       ReplyText (lit "Card 'Buy milk' created in list 'DOING'!") ], Ok tt).
Proof.
  apply (create_card_confirms_with_typed_name ascii_lower
           (Scenario.serving Scenario.todo_doing) Scenario.self
           (Scenario.from_alice None) (Scenario.tokens ["DOING"; "Buy"; "milk"])
           (lit "DOING") (lit "Buy") [lit "milk"] Scenario.todo_doing 2
           (Scenario.board_list "2" "Doing") (PStr (lit "2"))
           (PDict [(lit "id", PStr (lit "c1"))]));
    reflexivity.
Defined.

(** X3. When the create-card call fails with an error [e] (the request
    raises, or its response body does not decode), the explicit-create handler
    logs it, replies "Error creating card: " followed by [str(e)] and returns;
    the call is not repeated. *)
Theorem create_card_reports_failed_creation
    lower requests self update context list_name second rest
    lists n matching_list list_id e :
  args context = Some (list_name :: second :: rest) →
  outcome (get_trello_lists requests self) = Ok lists →
  len lists = Ok n →
  find_list lower lists list_name = Ok matching_list →
  truthy matching_list = true →
  getitem matching_list (lit "id") = Ok list_id →
  let card_title := join (lit " ") (second :: rest) in
  outcome (create_trello_card requests self list_id card_title (lit "")) = Raise e →
  telegram_create_card_command lower requests self update context =
    ([ create_received update; lists_request self; retrieved n;
       RequestsPost (cards_url self) (card_params self list_id card_title (lit ""));
       Log ERROR (lit "Error creating Trello card: " ++ exn_str e);
       ReplyText (lit "Error creating card: " ++ exn_str e) ], Ok tt).
Proof.
  intros Hargs Hget Hlen Hfind Htruthy Hid card_title Hcreate.
  pose proof (fetch_lists_returned _ _ _ _ Hget Hlen) as Hfetch.
  run_create Hargs Hfetch; rewrite Hfind; cbv beta iota;
    rewrite Htruthy, Hid; fold card_title; by rewrite Hcreate.
Qed.

Lemma create_card_reports_failed_creation_witness :
  telegram_create_card_command ascii_lower (Cases.read_only Scenario.todo_doing)
    Scenario.self (Scenario.from_alice None) (Scenario.tokens ["todo"; "Call"; "Bob"]) =
    ([ Log INFO (lit "Create card command received from alice");
       RequestsGet (lit "https://api.trello.com/1/boards/board/lists")
         [ (lit "key", PStr (lit "api-key")); (lit "token", PStr (lit "api-token")) ];
       Log INFO (lit "Retrieved 2 Trello lists");
       RequestsPost (lit "https://api.trello.com/1/cards")
         [ (lit "key", PStr (lit "api-key")); (lit "token", PStr (lit "api-token"));
           (lit "idList", PStr (lit "1")); (lit "name", PStr (lit "Call Bob"));
           (lit "desc", PStr []) ];
       Log ERROR (lit "Error creating Trello card: Max retries exceeded");
       ReplyText (lit "Error creating card: Max retries exceeded") ], Ok tt).
Proof.
  apply (create_card_reports_failed_creation ascii_lower
           (Cases.read_only Scenario.todo_doing) Scenario.self
           (Scenario.from_alice None) (Scenario.tokens ["todo"; "Call"; "Bob"])
           (lit "todo") (lit "Call") [lit "Bob"] Scenario.todo_doing 2
           (Scenario.board_list "1" "Todo") (PStr (lit "1"))
           Scenario.connection_error);
    reflexivity.
Defined.

(** X4. When the selected list is an object without an [id] entry, the
    [KeyError] is caught by the handler's [try]: the explicit-create handler
    replies "Error creating card: 'id'" and makes no create-card call. *)
Theorem create_card_reports_list_without_id
    lower requests self update context list_name second rest lists n d :
  args context = Some (list_name :: second :: rest) →
  outcome (get_trello_lists requests self) = Ok lists →
  len lists = Ok n →
  find_list lower lists list_name = Ok (PDict d) →
  d ≠ [] →
  dict_get d (lit "id") = None →
  telegram_create_card_command lower requests self update context =
    ([ create_received update; lists_request self; retrieved n;
       Log ERROR (lit "Error creating Trello card: 'id'");
       ReplyText (lit "Error creating card: 'id'") ], Ok tt).
Proof.
  intros Hargs Hget Hlen Hfind Hd Hid.
  pose proof (fetch_lists_returned _ _ _ _ Hget Hlen) as Hfetch.
  run_create Hargs Hfetch; rewrite Hfind; cbv beta iota;
    (destruct d as [|kv d]; [done|]); cbn [truthy getitem]; by rewrite Hid.
Qed.

Lemma create_card_reports_list_without_id_witness :
  telegram_create_card_command ascii_lower
    (Scenario.serving (PList [Cases.nameless_id]))
    Scenario.self (Scenario.from_alice None) (Scenario.tokens ["todo"; "Call"; "Bob"]) =
    ([ Log INFO (lit "Create card command received from alice");
       RequestsGet (lit "https://api.trello.com/1/boards/board/lists")
         [ (lit "key", PStr (lit "api-key")); (lit "token", PStr (lit "api-token")) ];
       Log INFO (lit "Retrieved 1 Trello lists");
       Log ERROR (lit "Error creating Trello card: 'id'");
       ReplyText (lit "Error creating card: 'id'") ], Ok tt).
Proof.
  apply (create_card_reports_list_without_id ascii_lower
           (Scenario.serving (PList [Cases.nameless_id])) Scenario.self
           (Scenario.from_alice None) (Scenario.tokens ["todo"; "Call"; "Bob"])
           (lit "todo") (lit "Call") [lit "Bob"] (PList [Cases.nameless_id]) 1
           [(lit "name", PStr (lit "Todo"))]);
    try reflexivity. discriminate.
Defined.

(** ** Reply to create: the paths after the fetch *)

(** X5. When no fetched list is named like the manager's default list name
    (an empty board included), the reply-to-create handler replies
    "No '<default list name>' list found in the board.", creates nothing and
    returns. *)
Theorem trello_reply_reports_missing_default_list
    lower requests self update context replied c m lists n items :
  reply_to_message (message update) = Some replied →
  opt_or (text replied) (caption replied) = Some (c :: m) →
  outcome (get_trello_lists requests self) = Ok lists →
  len lists = Ok n →
  iter lists = Ok items →
  Forall (named_unlike lower (default_list_name self)) items →
  telegram_trello_reply_command lower requests self update context =
    ([ trello_received update; lists_request self; retrieved n;
       ReplyText (lit "No '" ++ default_list_name self
                    ++ lit "' list found in the board.") ], Ok tt).
Proof.
  intros Hreply Htext Hget Hlen Hiter Hnone.
  pose proof (fetch_lists_returned _ _ _ _ Hget Hlen) as Hfetch.
  assert (Hfind : find_list lower lists (default_list_name self) = Ok PNone).
  { unfold find_list. rewrite Hiter. by apply first_named_none. }
  run_reply Hreply Htext Hfetch; by rewrite Hfind.
Qed.

Lemma trello_reply_reports_missing_default_list_witness :
  telegram_trello_reply_command ascii_lower (Scenario.serving (PList []))
    Scenario.self
    (Scenario.from_alice (Some {| text := Some (lit "Fix the tap"); caption := None |}))
    (Scenario.tokens []) =
    ([ Log INFO (lit "/trello command received from alice");
       RequestsGet (lit "https://api.trello.com/1/boards/board/lists")
         [ (lit "key", PStr (lit "api-key")); (lit "token", PStr (lit "api-token")) ];
       Log INFO (lit "Retrieved 0 Trello lists");
       ReplyText (lit "No 'Todo' list found in the board.") ], Ok tt).
Proof.
  apply (trello_reply_reports_missing_default_list ascii_lower
           (Scenario.serving (PList [])) Scenario.self
           (Scenario.from_alice
              (Some {| text := Some (lit "Fix the tap"); caption := None |}))
           (Scenario.tokens [])
           {| text := Some (lit "Fix the tap"); caption := None |}
           70%N (lit "ix the tap") (PList []) 0 []);
    try reflexivity.
  constructor.
Defined.

(** X6. When the lookup of the default list selects a list that has an
    identifier and the create-card call returns, the reply-to-create handler
    has made exactly that one call, with the derived card name and an empty
    description, and confirms with "Card created in <default list name>
    list!". *)
Theorem trello_reply_creates_and_confirms
    lower requests self update context replied c m
    lists n todo_list list_id card :
  reply_to_message (message update) = Some replied →
  opt_or (text replied) (caption replied) = Some (c :: m) →
  outcome (get_trello_lists requests self) = Ok lists →
  len lists = Ok n →
  find_list lower lists (default_list_name self) = Ok todo_list →
  truthy todo_list = true →
  getitem todo_list (lit "id") = Ok list_id →
  outcome (create_trello_card requests self list_id (card_name (c :: m)) (lit ""))
    = Ok card →
  telegram_trello_reply_command lower requests self update context =
    ([ trello_received update; lists_request self; retrieved n;
       RequestsPost (cards_url self)
         (card_params self list_id (card_name (c :: m)) (lit ""));
       ReplyText (lit "Card created in " ++ default_list_name self
                    ++ lit " list!") ], Ok tt).
Proof.
  intros Hreply Htext Hget Hlen Hfind Htruthy Hid Hcreate.
  pose proof (fetch_lists_returned _ _ _ _ Hget Hlen) as Hfetch.
  run_reply Hreply Htext Hfetch; rewrite Hfind; cbv beta iota;
    by rewrite Htruthy, Hid, Hcreate.
Qed.

Lemma trello_reply_creates_and_confirms_witness :
  telegram_trello_reply_command ascii_lower (Scenario.serving Scenario.todo_doing)
    Scenario.self
    (Scenario.from_alice (Some {| text := None; caption := Some (lit "Fix the tap") |}))
    (Scenario.tokens []) =
    ([ Log INFO (lit "/trello command received from alice");
       RequestsGet (lit "https://api.trello.com/1/boards/board/lists")
         [ (lit "key", PStr (lit "api-key")); (lit "token", PStr (lit "api-token")) ];
       Log INFO (lit "Retrieved 2 Trello lists");
       RequestsPost (lit "https://api.trello.com/1/cards")
         [ (lit "key", PStr (lit "api-key")); (lit "token", PStr (lit "api-token"));
           (lit "idList", PStr (lit "1")); (lit "name", PStr (lit "Fix the tap"));
           (lit "desc", PStr []) ];
       ReplyText (lit "Card created in Todo list!") ], Ok tt).
Proof.
  apply (trello_reply_creates_and_confirms ascii_lower
           (Scenario.serving Scenario.todo_doing) Scenario.self
           (Scenario.from_alice
              (Some {| text := None; caption := Some (lit "Fix the tap") |}))
           (Scenario.tokens [])
           {| text := None; caption := Some (lit "Fix the tap") |}
           70%N (lit "ix the tap") Scenario.todo_doing 2
           (Scenario.board_list "1" "Todo") (PStr (lit "1"))
           (PDict [(lit "id", PStr (lit "c1"))]));
    reflexivity.
Defined.

(** X7. When the create-card call of the reply-to-create handler fails with
    an error [e], the handler logs it, replies "Error creating card: "
    followed by [str(e)] and returns; the call is not repeated. *)
Theorem trello_reply_reports_failed_creation
    lower requests self update context replied c m
    lists n todo_list list_id e :
  reply_to_message (message update) = Some replied →
  opt_or (text replied) (caption replied) = Some (c :: m) →
  outcome (get_trello_lists requests self) = Ok lists →
  len lists = Ok n →
  find_list lower lists (default_list_name self) = Ok todo_list →
  truthy todo_list = true →
  getitem todo_list (lit "id") = Ok list_id →
  outcome (create_trello_card requests self list_id (card_name (c :: m)) (lit ""))
    = Raise e →
  telegram_trello_reply_command lower requests self update context =
    ([ trello_received update; lists_request self; retrieved n;
       RequestsPost (cards_url self)
         (card_params self list_id (card_name (c :: m)) (lit ""));
       Log ERROR (lit "Error creating Trello card: " ++ exn_str e);
       ReplyText (lit "Error creating card: " ++ exn_str e) ], Ok tt).
Proof.
  intros Hreply Htext Hget Hlen Hfind Htruthy Hid Hcreate.
  pose proof (fetch_lists_returned _ _ _ _ Hget Hlen) as Hfetch.
  run_reply Hreply Htext Hfetch; rewrite Hfind; cbv beta iota;
    by rewrite Htruthy, Hid, Hcreate.
Qed.

Lemma trello_reply_reports_failed_creation_witness :
  telegram_trello_reply_command ascii_lower (Cases.read_only Scenario.todo_doing)
    Scenario.self
    (Scenario.from_alice (Some {| text := Some (lit "Fix the tap"); caption := None |}))
    (Scenario.tokens []) =
    ([ Log INFO (lit "/trello command received from alice");
       RequestsGet (lit "https://api.trello.com/1/boards/board/lists")
         [ (lit "key", PStr (lit "api-key")); (lit "token", PStr (lit "api-token")) ];
       Log INFO (lit "Retrieved 2 Trello lists");
       RequestsPost (lit "https://api.trello.com/1/cards")
         [ (lit "key", PStr (lit "api-key")); (lit "token", PStr (lit "api-token"));
           (lit "idList", PStr (lit "1")); (lit "name", PStr (lit "Fix the tap"));
           (lit "desc", PStr []) ];
       Log ERROR (lit "Error creating Trello card: Max retries exceeded");
       ReplyText (lit "Error creating card: Max retries exceeded") ], Ok tt).
Proof.
  apply (trello_reply_reports_failed_creation ascii_lower
           (Cases.read_only Scenario.todo_doing) Scenario.self
           (Scenario.from_alice
              (Some {| text := Some (lit "Fix the tap"); caption := None |}))
           (Scenario.tokens [])
           {| text := Some (lit "Fix the tap"); caption := None |}
           70%N (lit "ix the tap") Scenario.todo_doing 2
           (Scenario.board_list "1" "Todo") (PStr (lit "1"))
           Scenario.connection_error);
    reflexivity.
Defined.

(** X8. The primary text wins over the caption: when the replied-to message
    has a non-empty text, the reply-to-create handler behaves exactly as on
    the same message without caption. *)
Theorem trello_reply_prefers_text_over_caption
    lower requests self update context replied c m :
  reply_to_message (message update) = Some replied →
  text replied = Some (c :: m) →
  telegram_trello_reply_command lower requests self update context =
  telegram_trello_reply_command lower requests self
    (replying_to update {| text := Some (c :: m); caption := None |}) context.
Proof.
  intros Hreply Htext. unfold telegram_trello_reply_command, replying_to.
  rewrite Hreply. cbn [reply_to_message message effective_user text caption].
  by rewrite Htext.
Qed.

Lemma trello_reply_prefers_text_over_caption_witness :
  telegram_trello_reply_command ascii_lower (Scenario.serving Scenario.todo_doing)
    Scenario.self
    (Scenario.from_alice
       (Some {| text := Some (lit "Fix the tap"); caption := Some (lit "A photo") |}))
    (Scenario.tokens []) =
  telegram_trello_reply_command ascii_lower (Scenario.serving Scenario.todo_doing)
    Scenario.self
    (Scenario.from_alice (Some {| text := Some (lit "Fix the tap"); caption := None |}))
    (Scenario.tokens []).
Proof.
  exact (trello_reply_prefers_text_over_caption ascii_lower
           (Scenario.serving Scenario.todo_doing) Scenario.self
           (Scenario.from_alice
              (Some {| text := Some (lit "Fix the tap");
                       caption := Some (lit "A photo") |}))
           (Scenario.tokens [])
           {| text := Some (lit "Fix the tap"); caption := Some (lit "A photo") |}
           70%N (lit "ix the tap") eq_refl eq_refl).
Defined.

(** ** Malformed fetch results *)

(** Once the [try] block has replied, both handlers return. *)
Lemma handlers_return_after_reported_fetch
    lower requests self update context t :
  fetch_lists requests self = (t, Ok None) →
  (fetch_attempted (trace (telegram_create_card_command lower requests self update context)) →
   telegram_create_card_command lower requests self update context =
     (create_received update :: t, Ok tt))
  ∧ (fetch_attempted (trace (telegram_trello_reply_command lower requests self update context)) →
     telegram_trello_reply_command lower requests self update context =
       (trello_received update :: t, Ok tt)).
Proof.
  intros Hfetch. split.
  - destruct (create_command_cases lower requests self update context)
      as [->|(list_name & second & rest & Hargs)]; [by no_fetch|].
    intros _. run_create Hargs Hfetch; by rewrite ?app_nil_r.
  - destruct (reply_command_cases lower requests self update context)
      as [->|[->|(replied & c & m & Hreply & Htext)]]; [by no_fetch..|].
    intros _. run_reply Hreply Htext Hfetch; by rewrite ?app_nil_r.
Qed.

(** X9. When the fetch returns a decoded body that has no length ([null], a
    number, [true] or [false]), [len] raises inside the handler's [try]: both
    handlers report it as "Error retrieving Trello lists: object of type
    '<type>' has no len()", make no create-card call and return. *)
Theorem unsized_fetch_result_is_reported
    lower requests self update context lists :
  outcome (get_trello_lists requests self) = Ok lists →
  match lists with PStr _ | PList _ | PDict _ => False | _ => True end →
  let report :=
    [ Log ERROR (lit "Error retrieving Trello lists: object of type '"
                   ++ lit (type_name lists) ++ lit "' has no len()");
      ReplyText (lit "Error retrieving Trello lists: object of type '"
                   ++ lit (type_name lists) ++ lit "' has no len()") ] in
  (fetch_attempted (trace (telegram_create_card_command lower requests self update context)) →
   telegram_create_card_command lower requests self update context =
     (create_received update :: lists_request self :: report, Ok tt))
  ∧ (fetch_attempted (trace (telegram_trello_reply_command lower requests self update context)) →
     telegram_trello_reply_command lower requests self update context =
       (trello_received update :: lists_request self :: report, Ok tt)).
Proof.
  intros Hget Hunsized report.
  apply handlers_return_after_reported_fetch.
  destruct lists; try done;
    by rewrite (fetch_lists_unsized _ _ _ _ Hget eq_refl).
Qed.

Lemma unsized_fetch_result_is_reported_witness :
  telegram_create_card_command ascii_lower (Scenario.serving PNone)
    Scenario.self (Scenario.from_alice None) (Scenario.tokens ["Todo"; "Call"]) =
    ([ Log INFO (lit "Create card command received from alice");
       RequestsGet (lit "https://api.trello.com/1/boards/board/lists")
         [ (lit "key", PStr (lit "api-key")); (lit "token", PStr (lit "api-token")) ];
       Log ERROR (lit "Error retrieving Trello lists: object of type 'NoneType' has no len()");
       ReplyText (lit "Error retrieving Trello lists: object of type 'NoneType' has no len()") ],
     Ok tt).
Proof.
  apply (proj1 (unsized_fetch_result_is_reported ascii_lower (Scenario.serving PNone)
                  Scenario.self (Scenario.from_alice None)
                  (Scenario.tokens ["Todo"; "Call"]) PNone eq_refl I)).
  vm_compute. apply Exists_cons_tl, Exists_cons_hd. reflexivity.
Defined.

Section LookupErrors.

Context (lower : str → str).

Lemma first_named_raise_inv items wanted e :
  first_named lower items wanted = Raise e →
  ∃ pre bad post, items = pre ++ bad :: post
                  ∧ Forall (named_unlike lower wanted) pre
                  ∧ name_of bad = None.
Proof.
  induction items as [|lst rest IH]; [done|].
  destruct (name_of lst) as [name|] eqn:Hname.
  - rewrite (first_named_named _ _ _ _ _ Hname). case_bool_decide as Hcmp; [done|].
    intros (pre & bad & post & -> & Hpre & Hbad)%IH.
    exists (lst :: pre), bad, post. repeat split; [|done].
    constructor; [by exists name|done].
  - intros _. exists [], lst, rest. repeat split; [constructor|done].
Qed.

Lemma first_named_stops_at_unnamed pre bad post wanted :
  Forall (named_unlike lower wanted) pre →
  name_of bad = None →
  ∃ e, first_named lower (pre ++ bad :: post) wanted = Raise e.
Proof.
  intros Hpre Hbad. induction Hpre as [|x pre (name & Hx & Hne) _ IH]; cbn [app].
  - by apply first_named_unnamed.
  - rewrite (first_named_named _ _ _ _ _ Hx). by rewrite bool_decide_eq_false_2.
Qed.

(** The lookup sees the query only through its lower-casing. *)
Lemma first_named_lowered items wanted wanted' :
  lower wanted = lower wanted' →
  first_named lower items wanted = first_named lower items wanted'.
Proof.
  intros Heq. induction items as [|lst rest IH]; [done|].
  cbn [first_named]. by rewrite Heq, IH.
Qed.

End LookupErrors.

(** X10. The lookup raises an error exactly when, walking the fetched lists
    in order, it meets an element that is not an object with a string [name]
    before it has met a list named like the query; elements after the first
    match are never looked at. *)
Theorem lookup_raises_iff_unnamed_before_match lower items wanted :
  (∃ e, find_list lower (PList items) wanted = Raise e) ↔
  ∃ pre bad post, items = pre ++ bad :: post
                  ∧ Forall (named_unlike lower wanted) pre
                  ∧ name_of bad = None.
Proof.
  change (find_list lower (PList items) wanted)
    with (first_named lower items wanted).
  split.
  - intros [e He]. by eapply first_named_raise_inv.
  - intros (pre & bad & post & -> & Hpre & Hbad).
    by apply first_named_stops_at_unnamed.
Qed.

Lemma lookup_raises_iff_unnamed_before_match_witness :
  (∃ e, find_list ascii_lower
          (PList [Scenario.board_list "1" "Todo"; PNone; Scenario.board_list "2" "Doing"])
          (lit "doing") = Raise e)
  ∧ find_list ascii_lower
      (PList [Scenario.board_list "1" "Todo"; PNone; Scenario.board_list "2" "Doing"])
      (lit "todo") = Ok (Scenario.board_list "1" "Todo").
Proof.
  split; [|reflexivity].
  apply (proj2 (lookup_raises_iff_unnamed_before_match ascii_lower
    [Scenario.board_list "1" "Todo"; PNone; Scenario.board_list "2" "Doing"]
    (lit "doing"))).
  exists [Scenario.board_list "1" "Todo"], PNone, [Scenario.board_list "2" "Doing"].
  repeat split.
  constructor; [|constructor].
  exists (lit "Todo"). split; [reflexivity|]. vm_compute. discriminate.
Defined.

(** X11. An error raised by the list lookup is not caught: the lookup is
    outside the handler's [try] blocks. When the fetch returned a sized value
    and the lookup over it raises [e] (the fetched value is not a list of
    named objects up to the first match), the handler ends by raising [e]
    right after the fetch: it sends no reply and makes no create-card
    call. *)
Theorem lookup_error_escapes_the_handler
    lower requests self update context lists n e :
  outcome (get_trello_lists requests self) = Ok lists →
  len lists = Ok n →
  (∀ list_name second rest,
     args context = Some (list_name :: second :: rest) →
     find_list lower lists list_name = Raise e →
     telegram_create_card_command lower requests self update context =
       ([create_received update; lists_request self; retrieved n], Raise e))
  ∧ (∀ replied c m,
       reply_to_message (message update) = Some replied →
       opt_or (text replied) (caption replied) = Some (c :: m) →
       find_list lower lists (default_list_name self) = Raise e →
       telegram_trello_reply_command lower requests self update context =
         ([trello_received update; lists_request self; retrieved n], Raise e)).
Proof.
  intros Hget Hlen.
  pose proof (fetch_lists_returned _ _ _ _ Hget Hlen) as Hfetch. split.
  - intros list_name second rest Hargs Hfind.
    run_create Hargs Hfetch; by rewrite Hfind.
  - intros replied c m Hreply Htext Hfind.
    run_reply Hreply Htext Hfetch; by rewrite Hfind.
Qed.

Lemma lookup_error_escapes_the_handler_witness :
  telegram_create_card_command ascii_lower Scenario.unauthorized
    Scenario.self (Scenario.from_alice None) (Scenario.tokens ["Todo"; "Call"]) =
    ([ Log INFO (lit "Create card command received from alice");
       RequestsGet (lit "https://api.trello.com/1/boards/board/lists")
         [ (lit "key", PStr (lit "api-key")); (lit "token", PStr (lit "api-token")) ];
       Log INFO (lit "Retrieved 1 Trello lists") ],
     Raise (TypeError (lit "string indices must be integers, not 'str'"))).
Proof.
  apply (proj1 (lookup_error_escapes_the_handler ascii_lower Scenario.unauthorized
                  Scenario.self (Scenario.from_alice None)
                  (Scenario.tokens ["Todo"; "Call"])
                  (PDict [(lit "message", PStr (lit "invalid key"))]) 1
                  (TypeError (lit "string indices must be integers, not 'str'"))
                  eq_refl eq_refl)
           (lit "Todo") (lit "Call") []); reflexivity.
Defined.

(** ** What every invocation does and never does *)

(** X12. Whatever the update, the arguments and the board service, a handler
    makes no outbound call, or the list fetch alone, or the list fetch
    followed by one create-card call with an empty description: never a
    create-card call without a fetch before it, never two fetches, never a
    retry. The welcome handler makes no outbound call at all. *)
Theorem outbound_calls_are_fetch_then_at_most_one_create
    lower requests self update context :
  let shape (t : list event) :=
    outbound t = []
    ∨ outbound t = [lists_request self]
    ∨ ∃ list_id name,
        outbound t = [ lists_request self;
                       RequestsPost (cards_url self)
                         (card_params self list_id name (lit "")) ] in
  shape (trace (telegram_create_card_command lower requests self update context))
  ∧ shape (trace (telegram_trello_reply_command lower requests self update context))
  ∧ outbound (trace (send_welcome update context)) = [].
Proof.
  intros shape. subst shape. cbv beta. split; [|split; [|done]].
  - destruct (create_command_cases lower requests self update context)
      as [->|(list_name & second & rest & Hargs)]; [by left|].
    rewrite (create_command_trace _ _ _ _ _ _ _ _ Hargs). cbv zeta.
    destruct (fetch_lists_cases requests self)
      as [(lists & n & _ & _ & ->)|[[e' ->]|[b ->]]]; [|by right; left..].
    change (outcome (?t, ?r)) with r. change (trace (?t, ?r)) with t.
    cbv beta iota. repeat case_match;
      first [ by right; left | right; right; eexists _, _; reflexivity ].
  - destruct (reply_command_cases lower requests self update context)
      as [->|[->|(replied & c & m & Hreply & Htext)]]; [by left..|].
    rewrite (reply_command_trace _ _ _ _ _ _ _ _ Hreply Htext).
    destruct (fetch_lists_cases requests self)
      as [(lists & n & _ & _ & ->)|[[e' ->]|[b ->]]]; [|by right; left..].
    change (outcome (?t, ?r)) with r. change (trace (?t, ?r)) with t.
    cbv beta iota. repeat case_match;
      first [ by right; left | right; right; eexists _, _; reflexivity ].
Qed.

(** X13. Every invocation of a handler that returns normally has sent
    exactly one reply, and an invocation that raises has sent none: the user
    is answered once, or (when the lookup raises on a malformed board, or
    when a call is interrupted by something that is not an [Exception]) not
    at all. *)
Theorem handlers_reply_exactly_once lower requests self update context :
  let once {A} (run : Py A) :=
    match outcome run with
    | Ok _ => length (replies (trace run)) = 1
    | Raise _ => replies (trace run) = []
    | RaiseBase _ => replies (trace run) = []
    end in
  once (telegram_create_card_command lower requests self update context)
  ∧ once (telegram_trello_reply_command lower requests self update context)
  ∧ once (send_welcome update context).
Proof.
  intros once. subst once. cbv beta. split; [|split; [|done]].
  - destruct (create_command_cases lower requests self update context)
      as [->|(list_name & second & rest & Hargs)]; [done|].
    rewrite (create_command_trace _ _ _ _ _ _ _ _ Hargs),
            (create_command_outcome _ _ _ _ _ _ _ _ Hargs). cbv zeta.
    destruct (fetch_lists_cases requests self)
      as [(lists & n & _ & _ & ->)|[[e' ->]|[b ->]]]; [|done..].
    change (outcome (?t, ?r)) with r. change (trace (?t, ?r)) with t.
    unfold creation_outcome. cbv beta iota.
    destruct (find_list lower lists list_name) as [matching_list|e|b]; [|done..].
    destruct (truthy matching_list); [|done].
    destruct (getitem matching_list (lit "id")) as [list_id|e|b]; [|done..].
    by destruct (outcome (create_trello_card _ _ _ _ _)).
  - destruct (reply_command_cases lower requests self update context)
      as [->|[->|(replied & c & m & Hreply & Htext)]]; [done..|].
    rewrite (reply_command_trace _ _ _ _ _ _ _ _ Hreply Htext),
            (reply_command_outcome _ _ _ _ _ _ _ _ Hreply Htext).
    destruct (fetch_lists_cases requests self)
      as [(lists & n & _ & _ & ->)|[[e' ->]|[b ->]]]; [|done..].
    change (outcome (?t, ?r)) with r. change (trace (?t, ?r)) with t.
    unfold creation_outcome. cbv beta iota.
    destruct (find_list lower lists (default_list_name self))
      as [todo_list|e|b]; [|done..].
    destruct (truthy todo_list); [|done].
    destruct (getitem todo_list (lit "id")) as [list_id|e|b]; [|done..].
    by destruct (outcome (create_trello_card _ _ _ _ _)).
Qed.

(** X14. The letter case of the list name typed by the user does not change
    what is sent to the board: two explicit-create invocations whose first
    tokens have the same lower-casing, and whose other tokens agree, select
    the same list and make the same outbound calls. *)
Theorem create_card_ignores_case_of_list_name
    lower requests self update context context' list_name list_name' second rest :
  args context = Some (list_name :: second :: rest) →
  args context' = Some (list_name' :: second :: rest) →
  lower list_name = lower list_name' →
  (∀ lists, find_list lower lists list_name = find_list lower lists list_name')
  ∧ outbound (trace (telegram_create_card_command lower requests self update context))
    = outbound (trace (telegram_create_card_command lower requests self update context')).
Proof.
  intros Hargs Hargs' Hcase.
  assert (Hfind : ∀ lists,
            find_list lower lists list_name = find_list lower lists list_name').
  { intros lists. unfold find_list. destruct (iter lists) as [items|e|b]; [|done..].
    by apply first_named_lowered. }
  split; [exact Hfind|].
  rewrite (create_command_trace _ _ _ _ _ _ _ _ Hargs),
          (create_command_trace _ _ _ _ _ _ _ _ Hargs'). cbv zeta.
  destruct (fetch_lists_cases requests self)
    as [(lists & n & _ & _ & ->)|[[e' ->]|[b ->]]]; [|done..].
  change (outcome (?t, ?r)) with r. change (trace (?t, ?r)) with t.
  cbv beta iota. rewrite <- Hfind. repeat case_match; done.
Qed.

Lemma create_card_ignores_case_of_list_name_witness :
  outbound (trace (telegram_create_card_command ascii_lower
                     (Scenario.serving Scenario.todo_doing) Scenario.self
                     (Scenario.from_alice None) (Scenario.tokens ["doing"; "Buy"; "milk"])))
  = outbound (trace (telegram_create_card_command ascii_lower
                       (Scenario.serving Scenario.todo_doing) Scenario.self
                       (Scenario.from_alice None) (Scenario.tokens ["DoInG"; "Buy"; "milk"]))).
Proof.
  exact (proj2 (create_card_ignores_case_of_list_name ascii_lower
    (Scenario.serving Scenario.todo_doing) Scenario.self (Scenario.from_alice None)
    (Scenario.tokens ["doing"; "Buy"; "milk"]) (Scenario.tokens ["DoInG"; "Buy"; "milk"])
    (lit "doing") (lit "DoInG") (lit "Buy") [lit "milk"]
    eq_refl eq_refl eq_refl)).
Defined.

(** X15. Deriving the card name is idempotent and keeps the first 150
    characters of the text: a name that was already derived is not truncated
    or marked a second time. *)
Theorem card_name_idempotent m :
  card_name (card_name m) = card_name m
  ∧ take 150 (card_name m) = take 150 m.
Proof.
  unfold card_name. destruct (Nat.ltb_spec 150 (length m)) as [Hlong|Hshort].
  - assert (Htake : length (take 150 m) = 150) by (rewrite length_take; lia).
    assert (Hlen : (150 <? length (take 150 m ++ lit "...")) = true).
    { apply Nat.ltb_lt. rewrite length_app, Htake.
      change (length (lit "...")) with 3. lia. }
    rewrite Hlen. by rewrite take_app_length'.
  - by rewrite (proj2 (Nat.ltb_ge _ _) Hshort).
Qed.


(** ** Startup, continued *)

(** With the four values usable, [main] builds the manager and the
    application, then goes as far as the transport lets it; an [Exception]
    raised on the way is caught, anything else goes through. *)
Lemma main_run environ telegram :
  all_truthy [ getenv environ "TELEGRAM_BOT_TOKEN"; getenv environ "TRELLO_API_KEY";
               getenv environ "TRELLO_TOKEN"; getenv environ "TRELLO_BOARD_ID" ]
    = true →
  ∃ bot_token,
    getenv environ "TELEGRAM_BOT_TOKEN" = Some bot_token ∧
    main environ telegram =
      (Log INFO (lit "TelegramTrelloBotManager initialized")
       :: BuildApplication bot_token
       :: match build telegram bot_token with
          | Ok _ =>
              registrations ++
              [ Log INFO (lit "Attempting to start bot polling");
                Print (lit "Starting bot polling...");
                RunPolling true ] ++
              match run_polling telegram true with
              | Ok _ => [ Log INFO (lit "Bot polling started successfully") ]
              | Raise e => startup_error_report e
              | RaiseBase _ => []
              end
          | Raise e => startup_error_report e
          | RaiseBase _ => []
          end,
       match build telegram bot_token with
       | Ok _ =>
           match run_polling telegram true with
           | RaiseBase b => RaiseBase b
           | _ => Ok tt
           end
       | Raise _ => Ok tt
       | RaiseBase b => RaiseBase b
       end).
Proof.
  intros Hall. unfold main. cbv zeta. rewrite Hall. cbn [negb].
  unfold all_truthy in Hall.
  destruct (getenv environ "TELEGRAM_BOT_TOKEN") as [bot_token|]; [|done].
  destruct (getenv environ "TRELLO_API_KEY") as [key|];
    [|by cbn [forallb opt_truthy] in Hall; rewrite ?andb_false_r in Hall].
  destruct (getenv environ "TRELLO_TOKEN") as [token|];
    [|by cbn [forallb opt_truthy] in Hall; rewrite ?andb_false_r in Hall].
  destruct (getenv environ "TRELLO_BOARD_ID") as [board|];
    [|by cbn [forallb opt_truthy] in Hall; rewrite ?andb_false_r in Hall].
  exists bot_token. split; [done|].
  unfold try_except, init.
  destruct (build telegram bot_token) as [[]|e|b] eqn:Hbuild;
    [destruct (run_polling telegram true) as [[]|e|b] eqn:Hpoll| |];
    cbn; rewrite ?Hbuild; cbn; rewrite ?Hpoll; reflexivity.
Qed.

Lemma all_truthy_usable environ :
  all_truthy [ getenv environ "TELEGRAM_BOT_TOKEN"; getenv environ "TRELLO_API_KEY";
               getenv environ "TRELLO_TOKEN"; getenv environ "TRELLO_BOARD_ID" ]
    = true ↔
  ∀ name, name ∈ required_variables → usable environ name = true.
Proof.
  unfold all_truthy, required_variables, usable. cbn [forallb].
  rewrite !andb_true_iff. split.
  - intros (H1 & H2 & H3 & H4 & _) name.
    rewrite !elem_of_cons, elem_of_nil. intros [->|[->|[->|[->|[]]]]]; done.
  - intros Hall. repeat split; apply Hall; rewrite !elem_of_cons; auto.
Qed.

(** X16. [main] stops with the report of missing variables exactly when one
    of the four required values is unset or set to the empty string; an
    empty value counts as missing. *)
Theorem main_reports_iff_a_value_is_unusable environ telegram :
  main environ telegram = (missing_report, Ok tt) ↔
  ∃ name, name ∈ required_variables ∧ usable environ name = false.
Proof.
  destruct (all_truthy [ getenv environ "TELEGRAM_BOT_TOKEN";
                         getenv environ "TRELLO_API_KEY";
                         getenv environ "TRELLO_TOKEN";
                         getenv environ "TRELLO_BOARD_ID" ]) eqn:Hall.
  - split.
    + destruct (main_run environ telegram Hall) as (bot_token & _ & ->). done.
    + intros (name & Hname & Hunusable).
      rewrite (proj1 (all_truthy_usable environ) Hall name Hname) in Hunusable. done.
  - split; [|intros _; by apply main_stops_when_not_all_truthy].
    intros _. apply not_true_iff_false in Hall.
    rewrite all_truthy_usable in Hall.
    unfold required_variables in *.
    destruct (usable environ "TELEGRAM_BOT_TOKEN") eqn:H1;
      [|exists "TELEGRAM_BOT_TOKEN"; split; [set_solver|done]].
    destruct (usable environ "TRELLO_API_KEY") eqn:H2;
      [|exists "TRELLO_API_KEY"; split; [set_solver|done]].
    destruct (usable environ "TRELLO_TOKEN") eqn:H3;
      [|exists "TRELLO_TOKEN"; split; [set_solver|done]].
    destruct (usable environ "TRELLO_BOARD_ID") eqn:H4;
      [|exists "TRELLO_BOARD_ID"; split; [set_solver|done]].
    exfalso. apply Hall. intros name.
    rewrite !elem_of_cons, elem_of_nil. intros [->|[->|[->|[->|[]]]]]; done.
Qed.

Lemma main_reports_iff_a_value_is_unusable_witness :
  Cases.empty_board_id !! "TRELLO_BOARD_ID" = Some []
  ∧ main Cases.empty_board_id Scenario.polling = (missing_report, Ok tt).
Proof.
  split; [vm_compute; reflexivity|].
  apply (proj2 (main_reports_iff_a_value_is_unusable Cases.empty_board_id
                  Scenario.polling)).
  exists "TRELLO_BOARD_ID". split; [|vm_compute; reflexivity].
  apply list_elem_of_In. vm_compute. right. right. right. left. reflexivity.
Defined.

(** X17. With the four values usable, a transport that accepts the token and
    a polling loop that returns, [main] builds the manager, builds the
    application with the bot token, registers [start], [createcard] and
    [trello] in this order, starts polling with pending updates dropped, and
    logs the end of polling; nothing else happens. *)
Theorem main_startup_sequence environ telegram :
  (∀ name, name ∈ required_variables → usable environ name = true) →
  (∀ token, build telegram token = Ok tt) →
  run_polling telegram true = Ok tt →
  ∃ bot_token,
    environ !! "TELEGRAM_BOT_TOKEN" = Some bot_token ∧
    main environ telegram =
      ([ Log INFO (lit "TelegramTrelloBotManager initialized");
         BuildApplication bot_token;
         AddHandler (lit "start") cb_send_welcome;
         AddHandler (lit "createcard") cb_telegram_create_card_command;
         AddHandler (lit "trello") cb_telegram_trello_reply_command;
         Log INFO (lit "Attempting to start bot polling");
         Print (lit "Starting bot polling...");
         RunPolling true;
         Log INFO (lit "Bot polling started successfully") ], Ok tt).
Proof.
  intros Hall%all_truthy_usable Hbuild Hpoll.
  destruct (main_run environ telegram Hall) as (bot_token & Htoken & ->).
  exists bot_token. split; [exact Htoken|]. by rewrite Hbuild, Hpoll.
Qed.

Lemma main_startup_sequence_witness :
  ∃ bot_token,
    fully_configured !! "TELEGRAM_BOT_TOKEN" = Some bot_token ∧
    main fully_configured Scenario.polling =
      ([ Log INFO (lit "TelegramTrelloBotManager initialized");
         BuildApplication bot_token;
         AddHandler (lit "start") cb_send_welcome;
         AddHandler (lit "createcard") cb_telegram_create_card_command;
         AddHandler (lit "trello") cb_telegram_trello_reply_command;
         Log INFO (lit "Attempting to start bot polling");
         Print (lit "Starting bot polling...");
         RunPolling true;
         Log INFO (lit "Bot polling started successfully") ], Ok tt).
Proof.
  apply (main_startup_sequence fully_configured Scenario.polling).
  - intros name. unfold required_variables.
    rewrite !elem_of_cons, elem_of_nil.
    intros [->|[->|[->|[->|[]]]]]; vm_compute; reflexivity.
  - reflexivity.
  - reflexivity.
Defined.

(** X18. An exception raised while starting the bot is caught and reported
    with "An error occurred while starting the bot: ..." and "Error: ...".
    When building the application raises, no handler is registered and
    polling is never started; when polling raises, the success line is not
    logged. *)
Theorem main_reports_startup_errors environ telegram e :
  (∀ name, name ∈ required_variables → usable environ name = true) →
  ∃ bot_token,
    environ !! "TELEGRAM_BOT_TOKEN" = Some bot_token ∧
    (build telegram bot_token = Raise e →
     main environ telegram =
       (Log INFO (lit "TelegramTrelloBotManager initialized")
        :: BuildApplication bot_token :: startup_error_report e, Ok tt))
    ∧ (build telegram bot_token = Ok tt →
       run_polling telegram true = Raise e →
       main environ telegram =
         (Log INFO (lit "TelegramTrelloBotManager initialized")
          :: BuildApplication bot_token
          :: registrations ++
             [ Log INFO (lit "Attempting to start bot polling");
               Print (lit "Starting bot polling...");
               RunPolling true ] ++ startup_error_report e, Ok tt)).
Proof.
  intros Hall%all_truthy_usable.
  destruct (main_run environ telegram Hall) as (bot_token & Htoken & ->).
  exists bot_token. split; [exact Htoken|]. split.
  - by intros ->.
  - by intros -> ->.
Qed.

Lemma main_reports_startup_errors_witness :
  main fully_configured Cases.rejecting =
    ([ Log INFO (lit "TelegramTrelloBotManager initialized");
       BuildApplication (lit "g");
       Log ERROR (lit "An error occurred while starting the bot: Not Found");
       Print (lit "Error: Not Found") ], Ok tt).
Proof.
  destruct (main_reports_startup_errors fully_configured Cases.rejecting
              Cases.invalid_token) as (bot_token & Htoken & Hbuild & _).
  - intros name. unfold required_variables.
    rewrite !elem_of_cons, elem_of_nil.
    intros [->|[->|[->|[->|[]]]]]; vm_compute; reflexivity.
  - assert (bot_token = lit "g") as ->.
    { vm_compute in Htoken. injection Htoken as <-. reflexivity. }
    apply Hbuild. reflexivity.
Defined.



(** ** The requests of a constructed manager *)

(** X20. A manager built by the constructor from the four credentials looks
    for the list "Todo" and talks to [https://api.trello.com/1]: listing
    issues exactly one GET on [/boards/<board id>/lists] with the key and the
    token, creating issues exactly one POST on [/cards] with the key, the
    token, the list identifier, the name and the description, whether or not
    the call succeeds. *)
Theorem constructed_manager_requests
    requests bot_token key token board list_id name description :
  ∃ self,
    init bot_token key token board =
      ([Log INFO (lit "TelegramTrelloBotManager initialized")], Ok self)
    ∧ default_list_name self = lit "Todo"
    ∧ trace (get_trello_lists requests self) =
        [ RequestsGet (lit "https://api.trello.com/1/boards/" ++ board ++ lit "/lists")
            [ (lit "key", PStr key); (lit "token", PStr token) ] ]
    ∧ trace (create_trello_card requests self list_id name description) =
        [ RequestsPost (lit "https://api.trello.com/1/cards")
            [ (lit "key", PStr key); (lit "token", PStr token);
              (lit "idList", list_id); (lit "name", PStr name);
              (lit "desc", PStr description) ] ].
Proof.
  eexists. split; [reflexivity|]. split; [reflexivity|]. split.
  - rewrite get_trello_lists_trace. reflexivity.
  - rewrite create_trello_card_trace. reflexivity.
Qed.
